(** * Messaging safety validator: the rule-resolution engine

    A shallow embedding of [src/lib/validator.ts] (class [MessageValidator])
    and of the pre-send hook that calls it, over the data model of
    [lib/types.ts], and the properties of their classification, rule
    lookup, decision, confirmation formatting and hook answers.

    Conventions of the embedding.
    - A JavaScript string is the list of its UTF-16 code units, so that
      [length], [substring] and [includes] count what the engine counts.
    - An object used as a string-keyed record ([Record<string, T>], an index
      signature) is a plain object: a [gmap] of its own properties, read
      through [readProperty], which also finds what [Object.prototype]
      supplies under a name the object does not have itself.
    - A [RegExp] is an object with state: its matcher, its flags and its
      [lastIndex], which [test] reads and writes under the [g] and [y]
      flags.  The table therefore changes when a message is classified, and
      the functions that classify return the table they leave behind.  Each
      entry of a [patterns] list is a [RegExp] object of its own.
    - A call either returns or throws (a [TypeError]); [Outcome] says
      which.
    - [String.prototype.toLowerCase] is a built-in of the host, not code of
      the validator: it is a parameter of [detectMessageType]. *)

From Stdlib Require Import NArith ZArith Ascii String List Lia.
From stdpp Require Import base option list gmap.

Open Scope N_scope.
Open Scope list_scope.

(** ** JavaScript strings *)

Module JS.

Definition code_unit : Type := N.
Abbreviation jsstring := (list N).

(** An ASCII literal of the source as code units. *)
Definition lit (s : string) : jsstring :=
  map N_of_ascii (list_ascii_of_string s).
Arguments lit s%_string.

(** [s.startsWith(t)] on code units; the helper of [includes]. *)
Fixpoint startsWith (s t : jsstring) {struct t} : bool :=
  match t, s with
  | [], _ => true
  | _ :: _, [] => false
  | y :: t', x :: s' => (x =? y) && startsWith s' t'
  end.

(** [s.includes(t)]: [t] occurs in [s] as a contiguous run of code units. *)
Fixpoint includes (s t : jsstring) : bool :=
  startsWith s t ||
  match s with
  | [] => false
  | _ :: s' => includes s' t
  end.

(** [s.split(sep)] for a one-unit separator: the pieces between the
    occurrences of [sep], all of them, never the empty array. *)
Fixpoint split (sep : code_unit) (s : jsstring) : list jsstring :=
  match s with
  | [] => [[]]
  | c :: s' =>
      if c =? sep then [] :: split sep s'
      else match split sep s' with
           | piece :: pieces => (c :: piece) :: pieces
           | [] => [[c]]
           end
  end.

(** [s.substring(0, n)]. *)
Definition substring0 (n : nat) (s : jsstring) : jsstring := take n s.

(** Truthiness of a string: the empty string is falsy. *)
Definition truthy (s : jsstring) : bool :=
  match s with [] => false | _ :: _ => true end.

(** [a || b] where [a] is a string or [undefined]. *)
Definition or_else (a : option jsstring) (b : jsstring) : jsstring :=
  match a with
  | Some s => if truthy s then s else b
  | None => b
  end.

(** What a template literal prints for a string or [undefined]. *)
Definition show (a : option jsstring) : jsstring :=
  match a with
  | Some s => s
  | None => lit "undefined"
  end.

Definition dot : code_unit := 46.
Definition star : jsstring := [42].
Definition nl : jsstring := [10].

End JS.

Import JS.

(** ** Plain objects and what they inherit *)

Module JSObject.

(** The property names of [Object.prototype] (ECMA-262, 20.1.3 and
    B.2.2): every plain object answers under them, with a function or, for
    [__proto__], with [Object.prototype] itself; all of these are truthy. *)
Definition objectPrototypeKeys : list jsstring :=
  [lit "constructor"; lit "hasOwnProperty"; lit "isPrototypeOf";
   lit "propertyIsEnumerable"; lit "toLocaleString"; lit "toString";
   lit "valueOf"; lit "__proto__"; lit "__defineGetter__";
   lit "__defineSetter__"; lit "__lookupGetter__"; lit "__lookupSetter__"].

(** What [o[key]] finds on a plain object [o]: a property of its own, a
    value inherited from [Object.prototype], or nothing ([undefined]). *)
Inductive Read (V : Type) : Type :=
| Own (v : V)
| Inherited
| Undefined.
Arguments Own {V} v.
Arguments Inherited {V}.
Arguments Undefined {V}.

Definition readProperty {V : Type} (o : gmap jsstring V) (key : jsstring)
  : Read V :=
  match o !! key with
  | Some v => Own v
  | None =>
      if bool_decide (key ∈ objectPrototypeKeys) then Inherited
      else Undefined
  end.

(** What reading a property of a built-in value gives, as far as the
    validator looks: something falsy ([undefined], [null], [0]), something
    truthy, or a [TypeError]. *)
Inductive PropertyRead := Falsy | Truthy | Throws.

(** The string-keyed properties of [Function.prototype] besides [length],
    [name], [caller] and [arguments] (ECMA-262, 20.2.3). *)
Definition functionPrototypeKeys : list jsstring :=
  [lit "apply"; lit "bind"; lit "call"; lit "constructor"; lit "toString"].

(** The function properties of the [Object] constructor (ECMA-262, 20.1.2). *)
Definition objectStaticKeys : list jsstring :=
  [lit "assign"; lit "create"; lit "defineProperties"; lit "defineProperty";
   lit "entries"; lit "freeze"; lit "fromEntries";
   lit "getOwnPropertyDescriptor"; lit "getOwnPropertyDescriptors";
   lit "getOwnPropertyNames"; lit "getOwnPropertySymbols";
   lit "getPrototypeOf"; lit "groupBy"; lit "hasOwn"; lit "is";
   lit "isExtensible"; lit "isFrozen"; lit "isSealed"; lit "keys";
   lit "preventExtensions"; lit "seal"; lit "setPrototypeOf"; lit "values"].

(** [v[key]] for the value [v] that a plain object inherits under the name
    [owner].  Under [__proto__] that value is [Object.prototype], whose own
    [__proto__] is [null].  Under every other name it is a function: [Object]
    under [constructor], the method of that name otherwise.  A function has
    its [name], a non-empty string, and its [length], the number of its
    parameters, [0] for [toString], [valueOf] and [toLocaleString]; it
    inherits from [Function.prototype], where [caller] and [arguments] are
    accessors that throw, and from [Object.prototype]; [Object] also has
    [prototype] and its own functions. *)
Definition builtinMember (owner key : jsstring) : PropertyRead :=
  if decide (owner = lit "__proto__") then
    if decide (key = lit "__proto__") then Falsy
    else if bool_decide (key ∈ objectPrototypeKeys) then Truthy
    else Falsy
  else if bool_decide (key ∈ [lit "caller"; lit "arguments"]) then Throws
  else if decide (key = lit "name") then Truthy
  else if decide (key = lit "length") then
    if bool_decide (owner ∈ [lit "toString"; lit "valueOf";
                             lit "toLocaleString"])
    then Falsy else Truthy
  else if bool_decide (key ∈ functionPrototypeKeys)
          || bool_decide (key ∈ objectPrototypeKeys) then Truthy
  else if decide (owner = lit "constructor") then
    if bool_decide (key ∈ lit "prototype" :: objectStaticKeys) then Truthy
    else Falsy
  else Falsy.

(** [v.name] for the value inherited under [owner]: ["Object"] for the
    constructor, the method's own name for a method, and [undefined] for
    [Object.prototype]. *)
Definition builtinName (owner : jsstring) : option jsstring :=
  if decide (owner = lit "__proto__") then None
  else if decide (owner = lit "constructor") then Some (lit "Object")
  else Some owner.

(** A call returns a value or throws. *)
Inductive Outcome (A : Type) : Type :=
| Returned (a : A)
| Threw.
Arguments Returned {A} a.
Arguments Threw {A}.

End JSObject.

Import JSObject.

(** ** Data model ([lib/types.ts]) *)

Inductive Platform := telegram | discord | slack | webchat.

Record Destination := {
  dest_id : jsstring;
  dest_type : Platform;
  dest_name : jsstring;
  dest_description : option jsstring;
  dest_priority : Z
}.

(** A [RegExp] object: the matcher of its pattern, which tries the pattern
    at one index of a string and gives the end index of the match if there
    is one; the flags [g], [y] and [u] (or [v]); and [lastIndex]. *)
Record RegExp := {
  re_matcher : jsstring -> nat -> option nat;
  re_global : bool;
  re_sticky : bool;
  re_unicode : bool;
  lastIndex : nat
}.

Record MessageTypeRule := {
  allowedIn : list jsstring;
  blockedIn : list jsstring;
  requiresConfirmation : list jsstring;
  contentPatterns : option (list RegExp);
  rule_reason : option jsstring
}.

Abbreviation MessageTypeCategory := (gmap jsstring MessageTypeRule).

Record DetectionRule := {
  dr_name : jsstring;
  patterns : list RegExp;
  classifyAs : jsstring
}.

Inductive Action := ask | allow | block.

Record DefaultBehavior := {
  db_action : Action;
  db_message : option jsstring
}.

Record Defaults := {
  unknownMessageType : DefaultBehavior;
  unknownDestination : DefaultBehavior
}.

Record MessagingRules := {
  version : jsstring;
  destinations : gmap jsstring Destination;
  messageTypes : gmap jsstring MessageTypeCategory;
  detectionRules : list DetectionRule;
  defaults : Defaults;
  overrideCode : jsstring
}.

Record ValidationResult := {
  allowed : bool;
  action : Action;
  reason : option jsstring;
  messageType : option jsstring;
  matchedRule : option jsstring;
  suggestedDestination : option jsstring;
  needsConfirmation : option bool
}.

(** The optional [metadata] bag of the source is never read by the
    validator and is left out. *)
Record MessageContext := {
  content : jsstring;
  destination : jsstring;
  channel : jsstring;
  isReply : option bool;
  threadId : option jsstring
}.

(** What [findRule] hands back where a rule is expected: a rule of the
    table, or the built-in value found along the path of names
    [Object.prototype[k1]] or [Object.prototype[k1][k2]], which is no rule. *)
Inductive Found :=
| Rule (rule : MessageTypeRule)
| Builtin (path : list jsstring).

(** ** [RegExp.prototype.test] (ECMA-262, 22.2.7.2 RegExpBuiltinExec) *)

Definition withLastIndex (p : RegExp) (i : nat) : RegExp :=
  {| re_matcher := re_matcher p; re_global := re_global p;
     re_sticky := re_sticky p; re_unicode := re_unicode p; lastIndex := i |}.

Definition isLeadSurrogate (c : code_unit) : bool :=
  (0xD800 <=? c) && (c <=? 0xDBFF).
Definition isTrailSurrogate (c : code_unit) : bool :=
  (0xDC00 <=? c) && (c <=? 0xDFFF).

(** By how much AdvanceStringIndex moves on from index [i]: one code unit,
    or the two of a surrogate pair under the [u] flag. *)
Definition stepAt (unicode : bool) (s : jsstring) (i : nat) : nat :=
  if unicode then
    match s !! i, s !! S i with
    | Some a, Some b =>
        if isLeadSurrogate a && isTrailSurrogate b then 2%nat else 1%nat
    | _, _ => 1%nat
    end
  else 1%nat.

(** The loop of RegExpBuiltinExec from the index [length s - rem]: the
    matcher is tried there; on failure a sticky pattern gives up, any other
    one moves on, until the index passes the end of the string. *)
Fixpoint scanFrom (p : RegExp) (s : jsstring) (rem : nat) : option nat :=
  let i := (length s - rem)%nat in
  match re_matcher p s i with
  | Some e => Some e
  | None =>
      if re_sticky p then None
      else
        match rem with
        | O => None
        | S rem' =>
            match stepAt (re_unicode p) s i, rem' with
            | S (S O), S rem'' => scanFrom p s rem''
            | _, _ => scanFrom p s rem'
            end
        end
  end.

(** [p.test(s)]: the answer, and the object as the call leaves it.  Without
    the [g] and [y] flags the search starts at index 0 and [lastIndex] is
    left alone; with one of them it starts at [lastIndex], which becomes
    the end of the match, or 0 when there is none. *)
Definition test (p : RegExp) (s : jsstring) : bool * RegExp :=
  let stateful := re_global p || re_sticky p in
  let start := if stateful then lastIndex p else 0%nat in
  let found :=
    if (length s <? start)%nat then None
    else scanFrom p s (length s - start) in
  match found with
  | Some e => (true, if stateful then withLastIndex p e else p)
  | None => (false, if stateful then withLastIndex p 0 else p)
  end.

(** ** The validator ([lib/validator.ts]) *)

(** The robot-arm emoji U+1F9BE of the keyword fallback, as its surrogate
    pair, and the warning sign U+26A0 U+FE0F of the confirmation header. *)
Definition robot_arm : jsstring := [0xD83E; 0xDDBE].
Definition warning_sign : jsstring := [0x26A0; 0xFE0F].

(** [parseMessageType]: [parts[0]] and [parts[1] || '*'] of
    [typePath.split('.')]. *)
Definition parseMessageType (typePath : jsstring) : jsstring * jsstring :=
  let parts := split dot typePath in
  (default [] (parts !! 0%nat), or_else (parts !! 1%nat) star).

(** [matchesDestination]: the wildcard, or the very same identifier. *)
Definition matchesDestination (destId pattern : jsstring) : bool :=
  if decide (pattern = star) then true
  else bool_decide (destId = pattern).

(** [isDestinationInList]: [list.some(...)]. *)
Definition isDestinationInList (destId : jsstring) (l : list jsstring) : bool :=
  existsb (matchesDestination destId) l.

(** The table with other pattern objects, or other detection rules; the
    state of the patterns is all that a call changes in [this.rules]. *)
Definition withPatterns (r : DetectionRule) (ps : list RegExp)
  : DetectionRule :=
  {| dr_name := dr_name r; patterns := ps; classifyAs := classifyAs r |}.

Definition withDetectionRules (rules : MessagingRules)
    (rs : list DetectionRule) : MessagingRules :=
  {| version := version rules; destinations := destinations rules;
     messageTypes := messageTypes rules; detectionRules := rs;
     defaults := defaults rules; overrideCode := overrideCode rules |}.

(** The inner loop of [detectMessageType]: the patterns of a rule are
    tested in order until one answers true; those tested are left in the
    state [test] puts them in, the others are not touched. *)
Fixpoint testPatterns (ps : list RegExp) (s : jsstring)
  : bool * list RegExp :=
  match ps with
  | [] => (false, [])
  | p :: ps' =>
      let tested := test p s in
      if tested.1 then (true, tested.2 :: ps')
      else
        let rest := testPatterns ps' s in
        (rest.1, tested.2 :: rest.2)
  end.

(** The outer loop: the [classifyAs] of the first rule one of whose
    patterns answers true, leaving the loops at once. *)
Fixpoint testRules (rs : list DetectionRule) (s : jsstring)
  : option jsstring * list DetectionRule :=
  match rs with
  | [] => (None, [])
  | r :: rs' =>
      let tested := testPatterns (patterns r) s in
      if tested.1 then (Some (classifyAs r), withPatterns r tested.2 :: rs')
      else
        let rest := testRules rs' s in
        (rest.1, withPatterns r tested.2 :: rest.2)
  end.

(** The keyword checks after the loops, on the lower-cased content. *)
Definition keywordFallback (lowerContent : jsstring) : jsstring :=
  if includes lowerContent (lit "digest") || includes lowerContent robot_arm
  then lit "digest.*"
  else if includes lowerContent (lit "reminder")
          || includes lowerContent (lit "don't forget")
  then lit "reminder.*"
  else if includes lowerContent (lit "replying to")
          || includes lowerContent (lit "in response to")
  then lit "reply.*"
  else if includes lowerContent (lit "revenue")
          || includes lowerContent (lit "business")
  then lit "business.*"
  else lit "unknown".

(** [findRule]: exact subtype, then the category's wildcard, else null.
    [categoryRules] is the table's category, or the built-in value that
    [messageTypes] inherits under the category's name; what is read from it
    is returned when it is truthy, a rule or not. *)
Definition findRule (rules : MessagingRules) (typePath : jsstring)
  : Outcome (option Found) :=
  let '(category, subtype) := parseMessageType typePath in
  match readProperty (messageTypes rules) category with
  | Undefined => Returned None
  | Own categoryRules =>
      match (if bool_decide (subtype ≠ star)
             then readProperty categoryRules subtype else Undefined) with
      | Own rule => Returned (Some (Rule rule))
      | Inherited => Returned (Some (Builtin [subtype]))
      | Undefined =>
          match readProperty categoryRules star with
          | Own rule => Returned (Some (Rule rule))
          | Inherited => Returned (Some (Builtin [star]))
          | Undefined => Returned None
          end
      end
  | Inherited =>
      match (if bool_decide (subtype ≠ star)
             then builtinMember category subtype else Falsy) with
      | Throws => Threw
      | Truthy => Returned (Some (Builtin [category; subtype]))
      | Falsy =>
          match builtinMember category star with
          | Throws => Threw
          | Truthy => Returned (Some (Builtin [category; star]))
          | Falsy => Returned None
          end
      end
  end.

(** [getDestinationName]: [dest?.name || destId], where [dest] is the
    table's destination or the built-in value inherited under the name. *)
Definition getDestinationName (rules : MessagingRules) (destId : jsstring)
  : jsstring :=
  or_else
    match readProperty (destinations rules) destId with
    | Own dest => Some (dest_name dest)
    | Inherited => builtinName destId
    | Undefined => None
    end
    destId.

Section Validator.

(** The host's [String.prototype.toLowerCase]. *)
Variable toLowerCase : jsstring -> jsstring.

(** [detectMessageType]: the type, and [this.rules] as the tests leave
    it. *)
Definition detectMessageType (rules : MessagingRules) (s : jsstring)
  : jsstring * MessagingRules :=
  let lowerContent := toLowerCase s in
  let scan := testRules (detectionRules rules) s in
  (match scan.1 with
   | Some path => path
   | None => keywordFallback lowerContent
   end,
   withDetectionRules rules scan.2).

(** [validate]: the branches in the order of the source, each one
    returning at once, and [this.rules] as the call leaves it.  A value
    from [findRule] that is no rule has no [blockedIn], and
    [isDestinationInList] throws on the missing list. *)
Definition validate (rules : MessagingRules) (context : MessageContext)
  : Outcome ValidationResult * MessagingRules :=
  if includes (content context) (overrideCode rules) then
    (Returned
       {| allowed := true; action := allow;
          reason := Some (lit "Override code used");
          messageType := None; matchedRule := None;
          suggestedDestination := None; needsConfirmation := None |},
     rules)
  else
    let detection := detectMessageType rules (content context) in
    let detectedType := detection.1 in
    let rules := detection.2 in
    let '(category, subtype) := parseMessageType detectedType in
    (match findRule rules detectedType with
     | Threw => Threw
     | Returned None =>
         Returned
           {| allowed := false;
              action := db_action (unknownMessageType (defaults rules));
              reason := Some (lit "No rules for message type: "
                              ++ detectedType);
              messageType := Some detectedType; matchedRule := None;
              suggestedDestination := None;
              needsConfirmation := Some true |}
     | Returned (Some found) =>
         match readProperty (destinations rules) (destination context) with
         | Undefined =>
             Returned
               {| allowed := false;
                  action := db_action (unknownDestination (defaults rules));
                  reason := Some (lit "Unknown destination: "
                                  ++ destination context);
                  messageType := Some detectedType; matchedRule := None;
                  suggestedDestination := None;
                  needsConfirmation := Some true |}
         | Own _ | Inherited =>
             match found with
             | Builtin _ => Threw
             | Rule rule =>
                 Returned
                   (if isDestinationInList (destination context)
                         (blockedIn rule)
                    then
                      {| allowed := false; action := block;
                         reason := Some (or_else (rule_reason rule)
                           (detectedType ++ lit " is blocked in "
                            ++ getDestinationName rules
                                 (destination context)));
                         messageType := Some detectedType;
                         matchedRule := Some (category ++ [dot] ++ subtype);
                         suggestedDestination := allowedIn rule !! 0%nat;
                         needsConfirmation := Some true |}
                    else if negb (default false (isReply context))
                            && isDestinationInList (destination context)
                                 (requiresConfirmation rule)
                    then
                      {| allowed := false; action := ask;
                         reason := Some
                           (getDestinationName rules (destination context)
                            ++ lit " requires confirmation for "
                            ++ detectedType);
                         messageType := Some detectedType;
                         matchedRule := Some (category ++ [dot] ++ subtype);
                         suggestedDestination := None;
                         needsConfirmation := Some true |}
                    else if isDestinationInList (destination context)
                              (allowedIn rule)
                    then
                      {| allowed := true; action := allow;
                         reason := None;
                         messageType := Some detectedType;
                         matchedRule := Some (category ++ [dot] ++ subtype);
                         suggestedDestination := None;
                         needsConfirmation := None |}
                    else
                      {| allowed := false; action := ask;
                         reason := Some (detectedType
                           ++ lit " not explicitly allowed in "
                           ++ getDestinationName rules
                                (destination context));
                         messageType := Some detectedType;
                         matchedRule := None;
                         suggestedDestination := None;
                         needsConfirmation := Some true |})
             end
         end
     end,
     rules).

End Validator.

(** [formatConfirmation]: the preview, then the message built up by the
    successive [msg += ...] of the source. *)
Definition formatConfirmation (rules : MessagingRules)
    (context : MessageContext) (result : ValidationResult) : jsstring :=
  let destName := getDestinationName rules (destination context) in
  let preview :=
    substring0 100 (content context)
    ++ (if (100 <? length (content context))%nat then lit "..." else []) in
  let msg := warning_sign ++ lit " **Send Confirmation Required**"
             ++ nl ++ nl in
  let msg := msg ++ (lit "**To:** " ++ destName ++ nl) in
  let msg := msg ++ (lit "**Type:** " ++ show (messageType result) ++ nl) in
  let msg := msg ++ (lit "**Reason:** " ++ show (reason result)
                     ++ nl ++ nl) in
  let msg := msg ++ (lit "**Message:**" ++ nl ++ preview ++ nl ++ nl) in
  let msg :=
    match suggestedDestination result with
    | Some d =>
        if truthy d
        then msg ++ (lit "**Suggested:** " ++ getDestinationName rules d
                     ++ nl ++ nl)
        else msg
    | None => msg
    end in
  msg ++ lit "Reply **YES** to send, **NO** to cancel.".

(** ** The pre-send hook ([hooks/pre-message-send.ts]) *)

(** What the hook answers to the host. *)
Record HookResponse := {
  hook_allow : bool;
  hook_reason : option jsstring
}.

(** [preMessageSend]: the answer for the host, the texts handed to
    [sendToBoss] on the way, in order, and the table of the one validator
    the module shares between its calls, as this call leaves it.  The hook
    goes by the result's [action]; an exception of [validate] is caught
    and answered with a refusal.  The last [return] of the [try] block,
    after the three tests on [action], is not reached for an [action] of
    the declared type.  What the hook writes to the console is not part of
    the answer and is left out. *)
Definition preMessageSend (toLowerCase : jsstring -> jsstring)
    (rules : MessagingRules) (context : MessageContext)
  : HookResponse * list jsstring * MessagingRules :=
  let validation := validate toLowerCase rules context in
  let rules := validation.2 in
  match validation.1 with
  | Returned result =>
      match action result with
      | allow => ({| hook_allow := true; hook_reason := None |}, [], rules)
      | block =>
          ({| hook_allow := false; hook_reason := reason result |}, [], rules)
      | ask =>
          let confirmMsg := formatConfirmation rules context result in
          ({| hook_allow := false;
              hook_reason := Some (lit "Confirmation required: "
                                   ++ show (reason result)) |},
           [confirmMsg], rules)
      end
  | Threw =>
      ({| hook_allow := false;
          hook_reason :=
            Some (lit "Validation error - message blocked for safety") |},
       [], rules)
  end.

(** ** Reading aids for the statements *)

(** [t] occurs in [s] as a literal substring. *)
Definition contains (s t : jsstring) : Prop :=
  exists pre post, s = pre ++ t ++ post.

(** No pattern of any of the detection rules answers true to [test] on the
    content, each taken in the state it is in. *)
Definition noDetection (rs : list DetectionRule) (s : jsstring) : Prop :=
  Forall (fun r => Forall (fun p => (test p s).1 = false) (patterns r)) rs.

(** A pattern of the rule answers true to [test] on the content. *)
Definition ruleMatches (s : jsstring) (r : DetectionRule) : Prop :=
  Exists (fun p => (test p s).1 = true) (patterns r).

(** The pattern matches the content: a search of the whole content, from
    its start, finds a match.  This does not depend on [lastIndex]. *)
Definition matchesContent (p : RegExp) (s : jsstring) : bool :=
  match scanFrom p s (length s) with
  | Some _ => true
  | None => false
  end.



(** The pattern has neither the [g] nor the [y] flag: [test] does not read
    or write its [lastIndex]. *)
Definition stateless (p : RegExp) : Prop :=
  re_global p || re_sticky p = false.


Definition allPatterns (P : RegExp -> Prop) (rs : list DetectionRule)
  : Prop :=
  Forall (fun r => Forall P (patterns r)) rs.

(** The destination matches a pattern of the list: the wildcard, or the
    identifier itself. *)
Definition matchesSome (destId : jsstring) (l : list jsstring) : Prop :=
  exists pattern, pattern ∈ l /\ (pattern = star \/ pattern = destId).

(** [destinations[destId]] finds something: a destination of the table, or
    a value inherited under the name. *)
Definition destinationFound (rules : MessagingRules) (destId : jsstring)
  : Prop :=
  is_Some (destinations rules !! destId) \/ destId ∈ objectPrototypeKeys.

(** The result of the override branch. *)
Definition overrideResult : ValidationResult :=
  {| allowed := true; action := allow;
     reason := Some (lit "Override code used");
     messageType := None; matchedRule := None;
     suggestedDestination := None; needsConfirmation := None |}.

(** The template of the confirmation message around the preview: what
    comes before it for a destination and a result, and what comes after. *)
Definition templateHead (rules : MessagingRules) (destId : jsstring)
                        (result : ValidationResult) : jsstring :=
  warning_sign ++ lit " **Send Confirmation Required**" ++ nl ++ nl
  ++ lit "**To:** " ++ getDestinationName rules destId ++ nl
  ++ lit "**Type:** " ++ show (messageType result) ++ nl
  ++ lit "**Reason:** " ++ show (reason result) ++ nl ++ nl
  ++ lit "**Message:**" ++ nl.

Definition templateTail (rules : MessagingRules) (result : ValidationResult)
  : jsstring :=
  nl ++ nl
  ++ (if truthy (default [] (suggestedDestination result))
      then lit "**Suggested:** "
           ++ getDestinationName rules
                (default [] (suggestedDestination result))
           ++ nl ++ nl
      else [])
  ++ lit "Reply **YES** to send, **NO** to cancel.".

(** The reading of the path as "split on the first dot": the text before
    the first ['.'], and everything after it, ['*'] when there is no dot. *)
Fixpoint splitAtFirstDot (s : jsstring) : jsstring * option jsstring :=
  match s with
  | [] => ([], None)
  | c :: s' =>
      if c =? dot then ([], Some s')
      else let '(a, b) := splitAtFirstDot s' in (c :: a, b)
  end.

Definition parseAtFirstDot (typePath : jsstring) : jsstring * jsstring :=
  let '(a, b) := splitAtFirstDot typePath in (a, default star b).

(** The text "<category>.<subtype>" that [validate] reports as the matched
    rule. *)
Definition typePathOf (category subtype : jsstring) : jsstring :=
  category ++ [dot] ++ subtype.

(** The five answers of the keyword fallback. *)
Definition fallbackTypes : list jsstring :=
  [lit "digest.*"; lit "reminder.*"; lit "reply.*"; lit "business.*";
   lit "unknown"].

(** The types the keyword fallback can answer, as categories. *)
Definition fallbackCategories : list jsstring :=
  [lit "digest"; lit "reminder"; lit "reply"; lit "business"; lit "unknown"].

(** The answer of the hook when [validate] has thrown. *)
Definition validationError : HookResponse :=
  {| hook_allow := false;
     hook_reason :=
       Some (lit "Validation error - message blocked for safety") |}.

(** ** Sample data for the examples *)

(** Lower-casing of the ASCII letters, every other code unit unchanged: an
    instance of the host's [toLowerCase] on ASCII text. *)
Definition asciiLower (s : jsstring) : jsstring :=
  map (fun c => if (65 <=? c) && (c <=? 90) then c + 32 else c) s.

Definition mkDest (id name : string) : Destination :=
  {| dest_id := lit id; dest_type := telegram; dest_name := lit name;
     dest_description := None; dest_priority := 1%Z |}.
Arguments mkDest (id name)%_string.

Definition mkRule (allowedL blockedL confirmL : list jsstring)
                  (why : option jsstring) : MessageTypeRule :=
  {| allowedIn := allowedL; blockedIn := blockedL;
     requiresConfirmation := confirmL;
     contentPatterns := None; rule_reason := why |}.

Definition digestAny : MessageTypeRule :=
  mkRule [lit "boss_dm"] [lit "work_group"] [] None.
Definition digestReddit : MessageTypeRule :=
  mkRule [lit "boss_dm"] [lit "work_group"; lit "ghost"; lit "boss_dm"]
         [lit "boss_dm"] None.
Definition revenueRule : MessageTypeRule :=
  mkRule [lit "ghost"; lit "boss_dm"] [lit "ghost"] []
         (Some (lit "Financial data is sensitive")).

(** The matcher of a pattern that is a literal text: the text stands at
    the index, and the match ends after it. *)
Definition literalAt (needle s : jsstring) (i : nat) : option nat :=
  if startsWith (drop i s) needle then Some (i + length needle)%nat
  else None.

(** The pattern [/reddit/], and [/reddit/g] in a given state. *)
Definition redditPattern : RegExp :=
  {| re_matcher := literalAt (lit "reddit"); re_global := false;
     re_sticky := false; re_unicode := false; lastIndex := 0 |}.


Definition redditRule (p : RegExp) (path : string) : DetectionRule :=
  {| dr_name := lit "reddit_content"; patterns := [p];
     classifyAs := lit path |}.
Arguments redditRule p path%_string.

Definition sampleRules (unknownType unknownDest : Action) (code : string)
  : MessagingRules :=
  {| version := lit "1.0.0";
     destinations :=
       <[lit "boss_dm" := mkDest "5185778742" "Boss"]>
       (<[lit "work_group" := mkDest "-100123456789" "Work Group"]> ∅);
     messageTypes :=
       <[lit "digest" :=
           <[star := digestAny]> (<[lit "reddit" := digestReddit]> ∅)]>
       (<[lit "business" := <[star := revenueRule]> ∅]> ∅);
     detectionRules := [redditRule redditPattern "digest.reddit"];
     defaults :=
       {| unknownMessageType := {| db_action := unknownType;
                                   db_message := None |};
          unknownDestination := {| db_action := unknownDest;
                                   db_message := None |} |};
     overrideCode := lit code |}.
Arguments sampleRules unknownType unknownDest code%_string.

(** The same table with a wildcard rule under the category "unknown". *)
Definition withUnknownRule (rules : MessagingRules) : MessagingRules :=
  {| version := version rules;
     destinations := destinations rules;
     messageTypes :=
       <[lit "unknown" := <[star := digestAny]> ∅]> (messageTypes rules);
     detectionRules := detectionRules rules;
     defaults := defaults rules;
     overrideCode := overrideCode rules |}.

(** A table with a wildcard rule for reminders: allowed in both
    destinations, with confirmation in the work group. *)
Definition reminderAny : MessageTypeRule :=
  mkRule [lit "boss_dm"; lit "work_group"] [] [lit "work_group"] None.

Definition withReminderRule (rules : MessagingRules) : MessagingRules :=
  {| version := version rules;
     destinations := destinations rules;
     messageTypes :=
       <[lit "reminder" := <[star := reminderAny]> ∅]> (messageTypes rules);
     detectionRules := detectionRules rules;
     defaults := defaults rules;
     overrideCode := overrideCode rules |}.

Definition reminderRules : MessagingRules :=
  withReminderRule (sampleRules ask ask "BOSS_OVERRIDE").


Definition classifyingAs (path : string) : MessagingRules :=
  withDetectionRules (sampleRules ask ask "BOSS_OVERRIDE")
    [redditRule redditPattern path].
Arguments classifyingAs path%_string.

(** A table with nothing configured but the defaults and the code. *)
Definition bareRules : MessagingRules :=
  {| version := lit "1.0.0"; destinations := ∅; messageTypes := ∅;
     detectionRules := [];
     defaults := {| unknownMessageType := {| db_action := ask;
                                             db_message := None |};
                    unknownDestination := {| db_action := ask;
                                             db_message := None |} |};
     overrideCode := lit "BOSS_OVERRIDE" |}.

Definition mkContext (text dest : string) : MessageContext :=
  {| content := lit text; destination := lit dest; channel := lit "telegram";
     isReply := None; threadId := None |}.
Arguments mkContext (text dest)%_string.

Definition mkReply (text dest : string) : MessageContext :=
  {| content := lit text; destination := lit dest; channel := lit "telegram";
     isReply := Some true; threadId := None |}.
Arguments mkReply (text dest)%_string.

(** ** Facts about the string primitives *)

Module JSFacts.

Lemma startsWith_spec (s t : jsstring) :
  startsWith s t = true <-> exists post, s = t ++ post.
Proof.
  revert s. induction t as [|y t IH]; intros s; simpl.
  - split; [intros _; by exists s | done].
  - destruct s as [|x s].
    + split; [done | intros [post Hp]; discriminate].
    + rewrite andb_true_iff, N.eqb_eq, IH. split.
      * intros [-> [post ->]]. by exists post.
      * intros [post Hp]. injection Hp as -> ->. split; [done | by exists post].
Qed.

Lemma includes_contains (s t : jsstring) :
  includes s t = true <-> contains s t.
Proof.
  unfold contains. induction s as [|x s IH].
  - simpl. rewrite orb_false_r, startsWith_spec. split.
    + intros [post Hp]. by exists [], post.
    + intros [pre [post Hp]]. destruct pre; [by exists post | discriminate].
  - cbn [includes]. rewrite orb_true_iff, IH, startsWith_spec. split.
    + intros [[post Hp] | [pre [post Hp]]].
      * by exists [], post.
      * exists (x :: pre), post. by rewrite Hp.
    + intros [[|y pre] [post Hp]].
      * left. by exists post.
      * right. injection Hp as -> ->. by exists pre, post.
Qed.

Lemma includes_empty (s : jsstring) : includes s [] = true.
Proof. by destruct s. Qed.

Lemma split_no_sep (sep : code_unit) (s : jsstring) :
  sep ∉ s -> split sep s = [s].
Proof.
  induction s as [|c s IH]; intros Hs; [done |].
  apply not_elem_of_cons in Hs as [Hc Hs]. simpl.
  destruct (N.eqb_spec c sep) as [-> | _]; [done |]. by rewrite IH.
Qed.

Lemma split_at_sep (sep : code_unit) (a s : jsstring) :
  sep ∉ a -> split sep (a ++ sep :: s) = a :: split sep s.
Proof.
  induction a as [|c a IH]; intros Ha; simpl.
  - by rewrite N.eqb_refl.
  - apply not_elem_of_cons in Ha as [Hc Ha].
    destruct (N.eqb_spec c sep) as [-> | _]; [done |]. by rewrite IH.
Qed.

Lemma split_nonempty (sep : code_unit) (s : jsstring) : split sep s <> [].
Proof.
  destruct s as [|c s]; simpl; [done |].
  destruct (c =? sep); [done |]. by destruct (split sep s).
Qed.

End JSFacts.

Import JSFacts.

(** ** Facts about the table as a call leaves it *)

Section Frame.

Variable toLowerCase : jsstring -> jsstring.
Variable rules : MessagingRules.
Variable s : jsstring.

Lemma findRule_detect (typePath : jsstring) :
  findRule (detectMessageType toLowerCase rules s).2 typePath
  = findRule rules typePath.
Proof. reflexivity. Qed.

Lemma destinations_detect :
  destinations (detectMessageType toLowerCase rules s).2 = destinations rules.
Proof. reflexivity. Qed.

Lemma defaults_detect :
  defaults (detectMessageType toLowerCase rules s).2 = defaults rules.
Proof. reflexivity. Qed.

Lemma getDestinationName_detect (destId : jsstring) :
  getDestinationName (detectMessageType toLowerCase rules s).2 destId
  = getDestinationName rules destId.
Proof. reflexivity. Qed.

End Frame.

(** The branches of [validate], one goal for each, with the tests that
    lead there as hypotheses. *)
Ltac validate_branches :=
  unfold validate; cbv zeta;
  destruct (includes _ _) eqn:Hov;
  [| rewrite ?findRule_detect, ?destinations_detect, ?defaults_detect,
       ?getDestinationName_detect;
     destruct (parseMessageType _) as [category subtype] eqn:Hparse;
     destruct (findRule _ _) as [[[rule|path]|]|] eqn:Hrule;
     [ destruct (readProperty _ _) as [dest| |] eqn:Hdest;
       [ destruct (isDestinationInList _ (blockedIn rule)) eqn:Hblocked;
         [| destruct (negb _ && _) eqn:Hconfirm;
            [| destruct (isDestinationInList _ (allowedIn rule))
                 eqn:Hallowed]]
       | destruct (isDestinationInList _ (blockedIn rule)) eqn:Hblocked;
         [| destruct (negb _ && _) eqn:Hconfirm;
            [| destruct (isDestinationInList _ (allowedIn rule))
                 eqn:Hallowed]]
       |]
     | destruct (readProperty _ _) as [dest| |] eqn:Hdest
     | | ]];
  cbn [fst snd].

(** ** The override branch *)

(** C1. Whenever the content contains the table's override code as a
    literal substring, [validate] returns the override result
    (allowed, action allow, reason "Override code used", nothing else
    set), whatever the destination, the rest of the content, the table's
    rules and destinations, and the host's lower-casing; no pattern is
    tested, and the table is left as it was. *)
Theorem validate_override (toLowerCase : jsstring -> jsstring)
    (rules : MessagingRules) (context : MessageContext) :
  contains (content context) (overrideCode rules) ->
  validate toLowerCase rules context = (Returned overrideResult, rules)
  /\ exists result,
       (validate toLowerCase rules context).1 = Returned result
       /\ allowed result = true
       /\ action result = allow
       /\ reason result = Some (lit "Override code used").
Proof.
  intros Hc. apply includes_contains in Hc.
  assert (validate toLowerCase rules context
          = (Returned overrideResult, rules)) as ->.
  { unfold validate. by rewrite Hc. }
  split; [done |]. by exists overrideResult.
Qed.

Lemma validate_override_witness :
  contains (content (mkContext "BOSS_OVERRIDE urgent" "anything"))
           (overrideCode (sampleRules block block "BOSS_OVERRIDE"))
  /\ (validate asciiLower (sampleRules block block "BOSS_OVERRIDE")
        (mkContext "BOSS_OVERRIDE urgent" "anything")).1
     = Returned overrideResult.
Proof.
  assert (contains (content (mkContext "BOSS_OVERRIDE urgent" "anything"))
            (overrideCode (sampleRules block block "BOSS_OVERRIDE"))) as Hc.
  { exists [], (lit " urgent"). reflexivity. }
  split; [exact Hc |].
  by rewrite (proj1 (validate_override asciiLower _ _ Hc)).
Defined.

(** C10. With the empty string as override code the override branch is
    taken on every call: every content includes the empty string. *)
Theorem validate_empty_override (toLowerCase : jsstring -> jsstring)
    (rules : MessagingRules) (context : MessageContext) :
  overrideCode rules = [] ->
  validate toLowerCase rules context = (Returned overrideResult, rules)
  /\ exists result,
       (validate toLowerCase rules context).1 = Returned result
       /\ allowed result = true
       /\ action result = allow
       /\ reason result = Some (lit "Override code used").
Proof.
  intros He.
  assert (validate toLowerCase rules context
          = (Returned overrideResult, rules)) as ->.
  { unfold validate. by rewrite He, includes_empty. }
  split; [done |]. by exists overrideResult.
Qed.

Lemma validate_empty_override_witness :
  overrideCode (sampleRules block block "") = []
  /\ (validate asciiLower (sampleRules block block "")
        (mkContext "quarterly revenue report" "work_group")).1
     = Returned overrideResult.
Proof.
  split; [reflexivity |].
  by rewrite (proj1 (validate_empty_override asciiLower
                       (sampleRules block block "")
                       (mkContext "quarterly revenue report" "work_group")
                       eq_refl)).
Defined.

(** ** Classification *)

Section Detection.

Variable s : jsstring.


Lemma test_stateless (p : RegExp) :
  stateless p -> test p s = (matchesContent p s, p).
Proof.
  unfold stateless, test, matchesContent. intros ->. cbn.
  rewrite Nat.sub_0_r. by destruct (scanFrom p s (length s)).
Qed.


Lemma testPatterns_false (ps : list RegExp) :
  Forall (fun p => (test p s).1 = false) ps -> (testPatterns ps s).1 = false.
Proof. induction 1 as [|p ps Hp _ IH]; simpl; [done | by rewrite Hp]. Qed.

Lemma testPatterns_true_inv (ps : list RegExp) :
  (testPatterns ps s).1 = true -> Exists (fun p => (test p s).1 = true) ps.
Proof.
  induction ps as [|p ps IH]; simpl; [done |].
  destruct (test p s).1 eqn:Hp; [by left | right; auto].
Qed.


Lemma testRules_none (rs : list DetectionRule) :
  noDetection rs s -> (testRules rs s).1 = None.
Proof.
  induction 1 as [|r rs Hr _ IH]; simpl; [done |].
  by rewrite (testPatterns_false _ Hr).
Qed.



Lemma testRules_classifyAs (rs : list DetectionRule) (path : jsstring) :
  (testRules rs s).1 = Some path ->
  exists r, r ∈ rs /\ ruleMatches s r /\ classifyAs r = path.
Proof.
  induction rs as [|r rs IH]; simpl; [done |].
  destruct (testPatterns (patterns r) s).1 eqn:Hm.
  - intros [= <-]. exists r. split; [by left |]. split; [| done].
    by apply testPatterns_true_inv.
  - intros H. destruct (IH H) as (r' & Hin & Hr').
    exists r'. split; [by right | done].
Qed.



End Detection.




(** The sample content matches a detection rule and the keyword "digest"
    at once; the detection rule decides. *)
Example detect_rule_beats_keyword :
  (detectMessageType asciiLower (sampleRules ask ask "BOSS_OVERRIDE")
     (lit "Daily digest from reddit")).1 = lit "digest.reddit"
  /\ keywordFallback (asciiLower (lit "Daily digest from reddit"))
     = lit "digest.*".
Proof. split; reflexivity. Qed.

(** ** Type paths and rule lookup *)

(** The path "a.b.c" has the subtype "b" in the code, and "b.c" under the
    reading that splits on the first dot only. *)
Lemma parseMessageType_not_first_dot :
  parseMessageType (lit "a.b.c") = (lit "a", lit "b")
  /\ parseAtFirstDot (lit "a.b.c") = (lit "a", lit "b.c")
  /\ parseMessageType (lit "a.b.c") <> parseAtFirstDot (lit "a.b.c").
Proof. split; [reflexivity |]. split; [reflexivity | discriminate]. Qed.

(** C5, amended. [parseMessageType] cuts the path at every ['.']: the
    category is the text before the first dot, the subtype is the text
    between the first dot and the second one (or the end of the path), and
    the subtype is ['*'] when the path has no dot or that segment is empty.
    So "unknown" gives ("unknown", "*") and "a.b.c" gives ("a", "b"). *)
Theorem parseMessageType_segments :
  (forall s : jsstring, dot ∉ s -> parseMessageType s = (s, star))
  /\ (forall a b rest : jsstring,
        dot ∉ a -> dot ∉ b ->
        rest = [] \/ (exists r, rest = dot :: r) ->
        parseMessageType (a ++ dot :: b ++ rest)
        = (a, if truthy b then b else star))
  /\ parseMessageType (lit "unknown") = (lit "unknown", star)
  /\ parseMessageType (lit "a.b.c") = (lit "a", lit "b").
Proof.
  split; [| split; [| split; reflexivity]].
  - intros s Hs. unfold parseMessageType. by rewrite (split_no_sep _ _ Hs).
  - intros a b rest Ha Hb Hrest. unfold parseMessageType.
    rewrite (split_at_sep _ _ _ Ha).
    destruct Hrest as [-> | [r ->]].
    + by rewrite app_nil_r, (split_no_sep _ _ Hb).
    + by rewrite (split_at_sep _ _ _ Hb).
Qed.

Lemma parseMessageType_segments_witness :
  ((dot ∉ lit "digest") /\ (dot ∉ lit "reddit"))
  /\ parseMessageType (lit "digest.reddit") = (lit "digest", lit "reddit").
Proof.
  assert (dot ∉ lit "digest") as Ha
    by (apply (bool_decide_unpack _); vm_compute; exact I).
  assert (dot ∉ lit "reddit") as Hb
    by (apply (bool_decide_unpack _); vm_compute; exact I).
  split; [by split |].
  exact (proj1 (proj2 parseMessageType_segments)
           (lit "digest") (lit "reddit") [] Ha Hb (or_introl eq_refl)).
Defined.

(** ** Reading a name that [Object.prototype] has *)

Lemma readProperty_own {V : Type} (o : gmap jsstring V) (key : jsstring)
    (v : V) :
  o !! key = Some v -> readProperty o key = Own v.
Proof. unfold readProperty. by intros ->. Qed.

Lemma readProperty_not_inherited {V : Type} (o : gmap jsstring V)
    (key : jsstring) :
  key ∉ objectPrototypeKeys ->
  readProperty o key
  = match o !! key with Some v => Own v | None => Undefined end.
Proof.
  intros Hk. unfold readProperty. destruct (o !! key); [done |].
  by rewrite bool_decide_eq_false_2.
Qed.

Lemma star_not_inherited : star ∉ objectPrototypeKeys.
Proof. apply (bool_decide_unpack _). vm_compute. exact I. Qed.

Lemma builtinMember_star (owner : jsstring) : builtinMember owner star = Falsy.
Proof.
  unfold builtinMember.
  destruct (decide (owner = lit "__proto__")); [reflexivity |].
  destruct (decide (owner = lit "constructor")); reflexivity.
Qed.


(** ** Further properties of the type paths and the rule lookup *)

Lemma split_pieces_no_sep (sep : code_unit) (s piece : jsstring) :
  piece ∈ split sep s -> sep ∉ piece.
Proof.
  revert piece. induction s as [|c s IH]; intros piece Hin; simpl in Hin.
  - apply list_elem_of_singleton in Hin as ->. apply not_elem_of_nil.
  - destruct (N.eqb_spec c sep) as [-> | Hne].
    + apply elem_of_cons in Hin as [-> | Hin]; [apply not_elem_of_nil | auto].
    + destruct (split sep s) as [|p ps] eqn:Hs.
      * apply list_elem_of_singleton in Hin as ->.
        apply not_elem_of_cons. split; [done | apply not_elem_of_nil].
      * apply elem_of_cons in Hin as [-> | Hin].
        -- apply not_elem_of_cons. split; [done |]. apply IH. by left.
        -- apply IH. by right.
Qed.

Lemma parseMessageType_joined (category subtype : jsstring) :
  dot ∉ category -> dot ∉ subtype -> subtype <> [] ->
  parseMessageType (typePathOf category subtype) = (category, subtype).
Proof.
  intros Hc Hs Hne. unfold parseMessageType, typePathOf. simpl app.
  rewrite (split_at_sep _ _ _ Hc), (split_no_sep _ _ Hs). simpl.
  by destruct subtype.
Qed.

Lemma parseMessageType_shape (typePath category subtype : jsstring) :
  parseMessageType typePath = (category, subtype) ->
  (dot ∉ category) /\ (dot ∉ subtype) /\ subtype <> [].
Proof.
  unfold parseMessageType. intros Hp.
  pose proof (split_pieces_no_sep dot typePath) as Hpieces.
  pose proof (split_nonempty dot typePath) as Hne.
  destruct (split dot typePath) as [|p0 [|p1 ps]]; [done | |];
    simpl in Hp; injection Hp as <- <-.
  - split; [apply Hpieces; by left |].
    split; [by apply (bool_decide_unpack _) | done].
  - split; [apply Hpieces; by left |].
    destruct p1 as [|c p1]; simpl.
    + split; [by apply (bool_decide_unpack _) | done].
    + split; [apply Hpieces; right; by left | done].
Qed.

(** X1. The category that [parseMessageType] returns has no dot in it, and
    the subtype has no dot and is never the empty string. *)
Theorem parseMessageType_no_dot_nonempty (typePath : jsstring) :
  (dot ∉ (parseMessageType typePath).1)
  /\ (dot ∉ (parseMessageType typePath).2)
  /\ (parseMessageType typePath).2 <> [].
Proof.
  destruct (parseMessageType typePath) as [category subtype] eqn:Hp.
  exact (parseMessageType_shape _ _ _ Hp).
Qed.

Lemma findRule_typePathOf (rules : MessagingRules)
    (typePath category subtype : jsstring) :
  parseMessageType typePath = (category, subtype) ->
  parseMessageType (typePathOf category subtype) = (category, subtype)
  /\ findRule rules (typePathOf category subtype) = findRule rules typePath.
Proof.
  intros Hp. destruct (parseMessageType_shape _ _ _ Hp) as (Hc & Hs & Hne).
  pose proof (parseMessageType_joined _ _ Hc Hs Hne) as Hj.
  split; [done |]. unfold findRule. by rewrite Hj, Hp.
Qed.

(** X2. Writing the parsed pair back as "<category>.<subtype>" and parsing
    that again gives the same pair, for every path; so the path written
    back resolves to the same rule as the path itself. *)
Theorem parseMessageType_reparse (rules : MessagingRules)
    (typePath : jsstring) :
  let category := (parseMessageType typePath).1 in
  let subtype := (parseMessageType typePath).2 in
  parseMessageType (typePathOf category subtype) = parseMessageType typePath
  /\ findRule rules (typePathOf category subtype) = findRule rules typePath.
Proof.
  cbv zeta. destruct (parseMessageType typePath) as [category subtype] eqn:Hp.
  simpl. exact (findRule_typePathOf rules _ _ _ Hp).
Qed.

Lemma findRule_wildcard_subtype (rules : MessagingRules)
    (typePath category : jsstring) :
  parseMessageType typePath = (category, star) ->
  findRule rules typePath
  = Returned (Rule <$> (messageTypes rules !! category ≫= (.!! star))).
Proof.
  intros Hp. unfold findRule. rewrite Hp.
  rewrite bool_decide_eq_false_2 by (intros H; by apply H).
  unfold readProperty at 1.
  destruct (messageTypes rules !! category) as [categoryRules|]; simpl.
  - rewrite (readProperty_not_inherited _ _ star_not_inherited).
    by destruct (categoryRules !! star).
  - case_bool_decide; [| done]. by rewrite builtinMember_star.
Qed.

(** X3. For a category without a dot, the bare category, the category with
    a trailing dot and the category with ".*" all resolve to the same rule:
    the category's wildcard rule if the table has one, and nothing else. *)
Theorem findRule_wildcard_paths (rules : MessagingRules)
    (category : jsstring) :
  dot ∉ category ->
  let wildcardRule :=
    Returned (Rule <$> (messageTypes rules !! category ≫= (.!! star))) in
  findRule rules category = wildcardRule
  /\ findRule rules (category ++ lit ".") = wildcardRule
  /\ findRule rules (category ++ lit ".*") = wildcardRule.
Proof.
  intros Hc. cbv zeta.
  assert (parseMessageType category = (category, star)) as H1.
  { unfold parseMessageType. by rewrite (split_no_sep _ _ Hc). }
  assert (parseMessageType (category ++ lit ".") = (category, star)) as H2.
  { unfold parseMessageType. change (lit ".") with (dot :: []).
    by rewrite (split_at_sep _ _ _ Hc). }
  assert (parseMessageType (category ++ lit ".*") = (category, star)) as H3.
  { unfold parseMessageType. change (lit ".*") with (dot :: star).
    by rewrite (split_at_sep _ _ _ Hc). }
  by rewrite !(findRule_wildcard_subtype rules _ category).
Qed.

Lemma findRule_wildcard_paths_witness :
  (dot ∉ lit "digest")
  /\ findRule (sampleRules ask ask "BOSS_OVERRIDE") (lit "digest")
     = Returned (Some (Rule digestAny))
  /\ findRule (sampleRules ask ask "BOSS_OVERRIDE") (lit "digest.*")
     = Returned (Some (Rule digestAny)).
Proof.
  assert (dot ∉ lit "digest") as Hc
    by (apply (bool_decide_unpack _); vm_compute; exact I).
  split; [exact Hc |].
  pose proof (findRule_wildcard_paths (sampleRules ask ask "BOSS_OVERRIDE")
                (lit "digest") Hc) as H.
  cbv zeta in H. destruct H as (H1 & _ & H3).
  split; [exact H1 | exact H3].
Defined.

Lemma findRule_own (rules : MessagingRules)
    (typePath category subtype : jsstring)
    (categoryRules : MessageTypeCategory) :
  parseMessageType typePath = (category, subtype) ->
  messageTypes rules !! category = Some categoryRules ->
  findRule rules typePath
  = match (if bool_decide (subtype ≠ star)
           then readProperty categoryRules subtype else Undefined) with
    | Own rule => Returned (Some (Rule rule))
    | Inherited => Returned (Some (Builtin [subtype]))
    | Undefined => Returned (Rule <$> categoryRules !! star)
    end.
Proof.
  intros Hp Hc. unfold findRule. rewrite Hp, (readProperty_own _ _ _ Hc).
  rewrite (readProperty_not_inherited categoryRules _ star_not_inherited).
  by destruct (categoryRules !! star).
Qed.

Lemma findRule_absent (rules : MessagingRules)
    (typePath category subtype : jsstring) :
  parseMessageType typePath = (category, subtype) ->
  messageTypes rules !! category = None ->
  findRule rules typePath
  = if bool_decide (category ∈ objectPrototypeKeys) then
      match (if bool_decide (subtype ≠ star)
             then builtinMember category subtype else Falsy) with
      | Throws => Threw
      | Truthy => Returned (Some (Builtin [category; subtype]))
      | Falsy => Returned None
      end
    else Returned None.
Proof.
  intros Hp Hc. unfold findRule, readProperty. rewrite Hp, Hc.
  case_bool_decide; [| done]. by rewrite builtinMember_star.
Qed.

(** X4. What [findRule] returns is null, or a rule of the table, stored in
    the path's own category under the path's subtype or under ['*'], or a
    built-in value, and that only when the category or the subtype is a
    property name of [Object.prototype]; it throws only for such a
    category.  No other category of the table is ever consulted. *)
Theorem findRule_sound (rules : MessagingRules) (typePath : jsstring) :
  let category := (parseMessageType typePath).1 in
  let subtype := (parseMessageType typePath).2 in
  (forall rule,
     findRule rules typePath = Returned (Some (Rule rule)) ->
     exists categoryRules key,
       messageTypes rules !! category = Some categoryRules
       /\ categoryRules !! key = Some rule
       /\ (key = subtype \/ key = star))
  /\ (forall path,
        findRule rules typePath = Returned (Some (Builtin path)) ->
        category ∈ objectPrototypeKeys \/ subtype ∈ objectPrototypeKeys)
  /\ (findRule rules typePath = Threw -> category ∈ objectPrototypeKeys).
Proof.
  cbv zeta.
  destruct (parseMessageType typePath) as [category subtype] eqn:Hp.
  cbn [fst snd].
  destruct (messageTypes rules !! category) as [categoryRules|] eqn:Hc.
  - rewrite (findRule_own _ _ _ _ _ Hp Hc). unfold readProperty.
    split; [| split].
    + intros rule H. exists categoryRules.
      case_bool_decide.
      * destruct (categoryRules !! subtype) as [r|] eqn:Hs.
        -- exists subtype. injection H as <-. auto.
        -- case_bool_decide; [discriminate H |]. exists star.
           destruct (categoryRules !! star); [| discriminate H].
           injection H as <-. auto.
      * exists star. destruct (categoryRules !! star); [| discriminate H].
        injection H as <-. auto.
    + intros path H. right. case_bool_decide.
      * destruct (categoryRules !! subtype); [discriminate H |].
        case_bool_decide; [done |].
        by destruct (categoryRules !! star).
      * by destruct (categoryRules !! star).
    + intros H. case_bool_decide.
      * destruct (categoryRules !! subtype); [discriminate H |].
        case_bool_decide; [discriminate H |].
        by destruct (categoryRules !! star).
      * by destruct (categoryRules !! star).
  - rewrite (findRule_absent _ _ _ _ Hp Hc).
    case_bool_decide as Hin; [| done].
    split; [| split; [intros; by left | done]].
    intros rule H.
    by destruct (if bool_decide (subtype ≠ star)
                 then builtinMember category subtype else Falsy).
Qed.

Lemma findRule_sound_witness :
  findRule (sampleRules ask ask "BOSS_OVERRIDE") (lit "digest.weekly")
  = Returned (Some (Rule digestAny))
  /\ exists categoryRules key,
       messageTypes (sampleRules ask ask "BOSS_OVERRIDE")
         !! (parseMessageType (lit "digest.weekly")).1 = Some categoryRules
       /\ categoryRules !! key = Some digestAny
       /\ (key = (parseMessageType (lit "digest.weekly")).2 \/ key = star).
Proof.
  split; [reflexivity |].
  exact (proj1 (findRule_sound (sampleRules ask ask "BOSS_OVERRIDE")
                  (lit "digest.weekly")) digestAny eq_refl).
Defined.



(** X5. A destination is in a pattern list exactly when the list holds the
    wildcard ['*'] or the identifier itself, whole and case-sensitive; the
    empty list holds no destination. *)
Theorem isDestinationInList_wildcard_or_member (destId : jsstring)
    (l : list jsstring) :
  (isDestinationInList destId l = true <-> star ∈ l \/ destId ∈ l)
  /\ isDestinationInList destId [] = false.
Proof.
  split; [| done]. unfold isDestinationInList. rewrite existsb_exists. split.
  - intros [pattern [Hin Hm]]. apply list_elem_of_In in Hin.
    unfold matchesDestination in Hm.
    destruct (decide (pattern = star)) as [-> | _]; [by left |].
    apply bool_decide_eq_true_1 in Hm as ->. by right.
  - intros [Hin | Hin].
    + exists star. split; [by apply list_elem_of_In | done].
    + exists destId. split; [by apply list_elem_of_In |].
      unfold matchesDestination.
      destruct (decide (destId = star)); [done | by apply bool_decide_eq_true_2].
Qed.

(** ** The decision *)

Lemma isDestinationInList_matchesSome (destId : jsstring) (l : list jsstring) :
  isDestinationInList destId l = true <-> matchesSome destId l.
Proof.
  unfold isDestinationInList, matchesSome. rewrite existsb_exists.
  split; intros [pattern [Hin Hm]]; exists pattern.
  - split; [by apply list_elem_of_In |]. unfold matchesDestination in Hm.
    destruct (decide (pattern = star)); [by left |].
    right. by apply bool_decide_eq_true_1 in Hm.
  - split; [by apply list_elem_of_In |]. unfold matchesDestination.
    destruct (decide (pattern = star)); [done |].
    destruct Hm as [? | ->]; [done | by apply bool_decide_eq_true_2].
Qed.

Lemma isDestinationInList_not_matchesSome (destId : jsstring)
    (l : list jsstring) :
  isDestinationInList destId l = false <-> ~ matchesSome destId l.
Proof.
  rewrite <- isDestinationInList_matchesSome.
  by destruct (isDestinationInList destId l).
Qed.

Lemma readProperty_found (rules : MessagingRules) (destId : jsstring) :
  readProperty (destinations rules) destId <> Undefined
  <-> destinationFound rules destId.
Proof.
  unfold readProperty, destinationFound.
  destruct (destinations rules !! destId) as [d|].
  - split; [intros _; left; by eexists | done].
  - case_bool_decide as Hin.
    + split; [by right | done].
    + split; [done | intros [[d Hd] | Hk]; done].
Qed.

(** C4. When the override code is not in the content and [findRule] has no
    rule for the detected type, the result is not allowed, its action is
    the table's unknown-message-type default action whichever of the three
    it is, its reason names the detected type, and it asks for
    confirmation. *)
Theorem validate_unknown_type (toLowerCase : jsstring -> jsstring)
    (rules : MessagingRules) (context : MessageContext) :
  includes (content context) (overrideCode rules) = false ->
  findRule rules (detectMessageType toLowerCase rules (content context)).1
  = Returned None ->
  let detectedType :=
    (detectMessageType toLowerCase rules (content context)).1 in
  exists result,
    (validate toLowerCase rules context).1 = Returned result
    /\ action result = db_action (unknownMessageType (defaults rules))
    /\ allowed result = false
    /\ reason result
       = Some (lit "No rules for message type: " ++ detectedType)
    /\ messageType result = Some detectedType
    /\ needsConfirmation result = Some true
    /\ matchedRule result = None /\ suggestedDestination result = None.
Proof.
  intros Hov Hnone. cbv zeta. unfold validate. cbv zeta.
  rewrite Hov, findRule_detect, Hnone.
  destruct (parseMessageType _) as [category subtype].
  eexists. split; [reflexivity |]. done.
Qed.

Lemma validate_unknown_type_witness :
  includes (content (mkContext "weekly summary" "boss_dm"))
           (overrideCode (sampleRules allow block "BOSS_OVERRIDE")) = false
  /\ exists result,
       (validate asciiLower (sampleRules allow block "BOSS_OVERRIDE")
          (mkContext "weekly summary" "boss_dm")).1 = Returned result
       /\ action result = allow /\ allowed result = false.
Proof.
  split; [reflexivity |].
  destruct (validate_unknown_type asciiLower
              (sampleRules allow block "BOSS_OVERRIDE")
              (mkContext "weekly summary" "boss_dm") eq_refl eq_refl)
    as (result & Hres & Ha & Hb & _).
  exists result. split; [exact Hres |]. split; [exact Ha | exact Hb].
Defined.

(** C9. A result of [validate] that is allowed has the action allow and
    leaves [needsConfirmation] unset; the converse fails: with an
    unknown-message-type default of allow, a content without rule gets the
    action allow and is not allowed. *)
Theorem validate_allowed_implies_allow :
  (forall (toLowerCase : jsstring -> jsstring) (rules : MessagingRules)
          (context : MessageContext) (result : ValidationResult),
     (validate toLowerCase rules context).1 = Returned result ->
     allowed result = true ->
     action result = allow /\ needsConfirmation result = None)
  /\ (exists (toLowerCase : jsstring -> jsstring) (rules : MessagingRules)
             (context : MessageContext) (result : ValidationResult),
        (validate toLowerCase rules context).1 = Returned result
        /\ db_action (unknownMessageType (defaults rules)) = allow
        /\ action result = allow
        /\ allowed result = false).
Proof.
  split.
  - intros toLowerCase rules context result.
    validate_branches; intros [= <-]; cbn; done.
  - exists asciiLower, (sampleRules allow block "BOSS_OVERRIDE"),
      (mkContext "weekly summary" "boss_dm").
    eexists. split; [reflexivity |]. by vm_compute.
Qed.

Lemma validate_allowed_implies_allow_witness :
  exists result,
    (validate asciiLower (sampleRules ask ask "BOSS_OVERRIDE")
       (mkContext "Morning digest" "boss_dm")).1 = Returned result
    /\ allowed result = true
    /\ action result = allow
    /\ needsConfirmation result = None.
Proof.
  eexists. split; [reflexivity |]. split; [reflexivity |].
  exact (proj1 validate_allowed_implies_allow asciiLower
           (sampleRules ask ask "BOSS_OVERRIDE")
           (mkContext "Morning digest" "boss_dm") _ eq_refl eq_refl).
Defined.

(** The content "weekly summary" is classified as "unknown"; in a table
    without a rule for that type the unknown-type branch answers, with its
    own default action, before the destination is looked at. *)
Lemma weekly_summary_unknown_type_first :
  let rules := sampleRules block ask "BOSS_OVERRIDE" in
  let context := mkContext "weekly summary" "nowhere" in
  includes (content context) (overrideCode rules) = false
  /\ noDetection (detectionRules rules) (content context)
  /\ destinations rules !! destination context = None
  /\ exists result,
       (validate asciiLower rules context).1 = Returned result
       /\ action result = block
       /\ action result <> db_action (unknownDestination (defaults rules)).
Proof.
  cbv zeta. split; [reflexivity |]. split; [repeat constructor |].
  split; [reflexivity |]. eexists. split; [reflexivity |].
  split; [reflexivity | discriminate].
Qed.

(** C2, amended. For the content "weekly summary", left unchanged by the
    lower-casing, without the override code in it and with no detection
    pattern answering, and a destination under which the table finds
    nothing (it is not in the table, and is not a name that every object
    inherits): the result is not allowed and asks for confirmation; its
    action is the unknown-destination default when [findRule] has a rule for
    the detected type "unknown", and the unknown-message-type default when
    it has none, the destination being looked up only once a rule is
    found. *)
Theorem validate_weekly_summary_unknown_destination
    (toLowerCase : jsstring -> jsstring) (rules : MessagingRules)
    (context : MessageContext) :
  content context = lit "weekly summary" ->
  toLowerCase (lit "weekly summary") = lit "weekly summary" ->
  includes (content context) (overrideCode rules) = false ->
  noDetection (detectionRules rules) (content context) ->
  destinations rules !! destination context = None ->
  destination context ∉ objectPrototypeKeys ->
  (detectMessageType toLowerCase rules (content context)).1 = lit "unknown"
  /\ exists result,
       (validate toLowerCase rules context).1 = Returned result
       /\ allowed result = false
       /\ needsConfirmation result = Some true
       /\ messageType result = Some (lit "unknown")
       /\ match messageTypes rules !! lit "unknown" ≫= (.!! star) with
          | Some rule =>
              findRule rules (lit "unknown") = Returned (Some (Rule rule))
              /\ action result
                 = db_action (unknownDestination (defaults rules))
              /\ reason result
                 = Some (lit "Unknown destination: " ++ destination context)
          | None =>
              findRule rules (lit "unknown") = Returned None
              /\ action result
                 = db_action (unknownMessageType (defaults rules))
              /\ reason result
                 = Some (lit "No rules for message type: unknown")
          end.
Proof.
  intros Hc Hlow Hov Hno Hdest Hproto.
  assert ((detectMessageType toLowerCase rules (content context)).1
          = lit "unknown") as Hdet.
  { unfold detectMessageType. cbn [fst].
    rewrite (testRules_none _ _ Hno), Hc, Hlow. reflexivity. }
  split; [exact Hdet |].
  pose proof (findRule_wildcard_subtype rules (lit "unknown") (lit "unknown")
                eq_refl) as Hfind.
  unfold validate. cbv zeta.
  rewrite Hov, findRule_detect, destinations_detect, Hdet, Hfind.
  change (parseMessageType (lit "unknown")) with (lit "unknown", star).
  cbv iota beta.
  destruct (messageTypes rules !! lit "unknown" ≫= (.!! star)) as [rule|];
    cbn [fmap option_fmap option_map].
  - rewrite (readProperty_not_inherited _ _ Hproto), Hdest.
    eexists. split; [reflexivity |]. done.
  - eexists. split; [reflexivity |]. done.
Qed.

Lemma validate_weekly_summary_unknown_destination_witness :
  destinations (withUnknownRule (sampleRules block ask "BOSS_OVERRIDE"))
    !! lit "nowhere" = None
  /\ (lit "nowhere" ∉ objectPrototypeKeys)
  /\ exists result,
       (validate asciiLower
          (withUnknownRule (sampleRules block ask "BOSS_OVERRIDE"))
          (mkContext "weekly summary" "nowhere")).1 = Returned result
       /\ allowed result = false
       /\ action result = ask.
Proof.
  assert (lit "nowhere" ∉ objectPrototypeKeys) as Hk
    by (apply (bool_decide_unpack _); vm_compute; exact I).
  split; [reflexivity |]. split; [exact Hk |].
  destruct (validate_weekly_summary_unknown_destination asciiLower
              (withUnknownRule (sampleRules block ask "BOSS_OVERRIDE"))
              (mkContext "weekly summary" "nowhere")
              eq_refl eq_refl eq_refl
              ltac:(repeat constructor) eq_refl Hk)
    as (_ & result & Hres & Hal & _ & _ & Hact).
  exists result. split; [exact Hres |]. split; [exact Hal |].
  change (messageTypes (withUnknownRule (sampleRules block ask "BOSS_OVERRIDE"))
            !! lit "unknown" ≫= (.!! star)) with (Some digestAny) in Hact.
  exact (proj1 (proj2 Hact)).
Defined.

(** A matched rule that lists the destination both as blocked and as
    allowed, for a destination the table does not know: the answer is the
    unknown-destination one, not a block. *)
Lemma blocked_and_allowed_unknown_destination :
  let rules := sampleRules block ask "BOSS_OVERRIDE" in
  let context := mkContext "quarterly revenue report" "ghost" in
  findRule rules (detectMessageType asciiLower rules (content context)).1
  = Returned (Some (Rule revenueRule))
  /\ matchesSome (lit "ghost") (blockedIn revenueRule)
  /\ matchesSome (lit "ghost") (allowedIn revenueRule)
  /\ exists result,
       (validate asciiLower rules context).1 = Returned result
       /\ action result = ask
       /\ matchedRule result = None
       /\ action result <> block.
Proof.
  cbv zeta. split; [reflexivity |].
  split; [exists (lit "ghost"); split; [by left | by right] |].
  split; [exists (lit "ghost"); split; [by left | by right] |].
  eexists. split; [reflexivity |].
  split; [reflexivity |]. split; [reflexivity | discriminate].
Qed.

(** Nor is there a block when the content carries the override code. *)
Example blocked_and_allowed_override :
  (validate asciiLower (sampleRules block ask "BOSS_OVERRIDE")
     (mkContext "BOSS_OVERRIDE a reddit thread" "boss_dm")).1
  = Returned overrideResult.
Proof. reflexivity. Qed.

(** A reason that is the empty string is falsy and gives way to the
    generated one. *)
Example empty_reason_is_falsy (generated : jsstring) :
  or_else (Some []) generated = generated.
Proof. reflexivity. Qed.

(** C3, amended. When the override code is not in the content, [findRule]
    has a rule for the detected type and the destination is in the table,
    a destination that matches a pattern of the rule's [blockedIn] and one
    of its [allowedIn] is blocked: not allowed, action block, the rule's
    reason when it has a non-empty one and else the generated
    "<type> is blocked in <display name>", the matched rule
    "<category>.<subtype>", confirmation needed, and the first entry of
    [allowedIn] as suggested destination; neither the confirmation list nor
    the reply flag plays a part. *)
Theorem validate_block_before_allow (toLowerCase : jsstring -> jsstring)
    (rules : MessagingRules) (context : MessageContext)
    (rule : MessageTypeRule) (category subtype : jsstring) :
  let detectedType :=
    (detectMessageType toLowerCase rules (content context)).1 in
  includes (content context) (overrideCode rules) = false ->
  findRule rules detectedType = Returned (Some (Rule rule)) ->
  parseMessageType detectedType = (category, subtype) ->
  is_Some (destinations rules !! destination context) ->
  matchesSome (destination context) (blockedIn rule) ->
  matchesSome (destination context) (allowedIn rule) ->
  let generated := detectedType ++ lit " is blocked in "
                   ++ getDestinationName rules (destination context) in
  exists result,
    (validate toLowerCase rules context).1 = Returned result
    /\ allowed result = false
    /\ action result = block
    /\ (forall why, rule_reason rule = Some why -> why <> [] ->
                    reason result = Some why)
    /\ (rule_reason rule = None \/ rule_reason rule = Some [] ->
        reason result = Some generated)
    /\ messageType result = Some detectedType
    /\ matchedRule result = Some (category ++ lit "." ++ subtype)
    /\ needsConfirmation result = Some true
    /\ suggestedDestination result = head (allowedIn rule)
    /\ is_Some (suggestedDestination result).
Proof.
  intros detectedType Hov Hrule Hparse [d Hd] Hb Ha. cbv zeta.
  apply isDestinationInList_matchesSome in Hb.
  unfold validate. cbv zeta. fold detectedType.
  rewrite Hov, findRule_detect, destinations_detect. fold detectedType.
  rewrite Hparse, Hrule, (readProperty_own _ _ _ Hd), Hb.
  eexists. split; [reflexivity |].
  cbn [allowed action reason messageType matchedRule needsConfirmation
       suggestedDestination].
  repeat split; try done.
  - intros why -> Hne. by destruct why.
  - by intros [-> | ->].
  - by rewrite head_lookup.
  - destruct Ha as [pattern [Hin _]].
    destruct (allowedIn rule); [by apply elem_of_nil in Hin | by eexists].
Qed.

Lemma validate_block_before_allow_witness :
  matchesSome (lit "boss_dm") (blockedIn digestReddit)
  /\ matchesSome (lit "boss_dm") (allowedIn digestReddit)
  /\ exists result,
       (validate asciiLower (sampleRules ask ask "BOSS_OVERRIDE")
          (mkContext "a reddit thread" "boss_dm")).1 = Returned result
       /\ action result = block
       /\ suggestedDestination result = Some (lit "boss_dm").
Proof.
  assert (matchesSome (lit "boss_dm") (blockedIn digestReddit)) as Hb.
  { exists (lit "boss_dm"). split; [| by right].
    apply (bool_decide_unpack _). vm_compute. exact I. }
  assert (matchesSome (lit "boss_dm") (allowedIn digestReddit)) as Ha.
  { exists (lit "boss_dm"). split; [by left | by right]. }
  split; [exact Hb |]. split; [exact Ha |].
  destruct (validate_block_before_allow asciiLower
              (sampleRules ask ask "BOSS_OVERRIDE")
              (mkContext "a reddit thread" "boss_dm") digestReddit
              (lit "digest") (lit "reddit")
              eq_refl eq_refl eq_refl
              (ex_intro _ (mkDest "5185778742" "Boss") eq_refl) Hb Ha)
    as (result & Hres & _ & Hact & _ & _ & _ & _ & _ & Hs & _).
  exists result. split; [exact Hres |]. split; [exact Hact | exact Hs].
Defined.

(** ** Further properties of the decision *)

(** X6. The shape of every result of [validate]: it asks for confirmation
    exactly when it is not allowed, and never sets the flag to false; a
    result that is not allowed, and any result whose action is not allow,
    has a reason and a message type; a suggested destination comes only
    with the action block and a matched rule. *)
Theorem validate_result_shape (toLowerCase : jsstring -> jsstring)
    (rules : MessagingRules) (context : MessageContext)
    (result : ValidationResult) :
  (validate toLowerCase rules context).1 = Returned result ->
  (needsConfirmation result = Some true <-> allowed result = false)
  /\ needsConfirmation result <> Some false
  /\ (allowed result = false \/ action result <> allow ->
      is_Some (reason result) /\ is_Some (messageType result))
  /\ (is_Some (suggestedDestination result) ->
      action result = block /\ is_Some (matchedRule result)).
Proof.
  validate_branches; intros [= <-];
    cbn [allowed action reason messageType matchedRule suggestedDestination
         needsConfirmation].
  all: repeat split; try done; try (by eexists).
  all: match goal with
       | H : _ \/ _ |- _ => destruct H as [H | H]; [discriminate | by destruct H]
       end.
Qed.

Lemma validate_result_shape_witness :
  exists result,
    (validate asciiLower reminderRules
       (mkContext "Reminder: standup" "work_group")).1 = Returned result
    /\ allowed result = false
    /\ is_Some (reason result)
    /\ is_Some (messageType result).
Proof.
  eexists. split; [reflexivity |]. split; [reflexivity |].
  destruct (validate_result_shape asciiLower reminderRules
              (mkContext "Reminder: standup" "work_group") _ eq_refl)
    as (_ & _ & H & _).
  exact (H (or_introl eq_refl)).
Defined.

(** X7. When a reply gets as far as the rule's lists (no override code, a
    rule for the detected type, a known destination that is not blocked),
    the confirmation list is not looked at: the reply is allowed when the
    destination matches [allowedIn], and otherwise asked about as "not
    explicitly allowed". *)
Theorem validate_reply_skips_confirmation
    (toLowerCase : jsstring -> jsstring) (rules : MessagingRules)
    (context : MessageContext) (rule : MessageTypeRule) :
  let detectedType :=
    (detectMessageType toLowerCase rules (content context)).1 in
  isReply context = Some true ->
  includes (content context) (overrideCode rules) = false ->
  findRule rules detectedType = Returned (Some (Rule rule)) ->
  is_Some (destinations rules !! destination context) ->
  ~ matchesSome (destination context) (blockedIn rule) ->
  exists result,
    (validate toLowerCase rules context).1 = Returned result
    /\ (matchesSome (destination context) (allowedIn rule) ->
        allowed result = true /\ action result = allow
        /\ reason result = None /\ needsConfirmation result = None)
    /\ (~ matchesSome (destination context) (allowedIn rule) ->
        allowed result = false /\ action result = ask
        /\ reason result
           = Some (detectedType ++ lit " not explicitly allowed in "
                   ++ getDestinationName rules (destination context))
        /\ matchedRule result = None).
Proof.
  intros detectedType Hreply Hov Hrule [d Hd] Hnb.
  apply isDestinationInList_not_matchesSome in Hnb.
  unfold validate. cbv zeta. fold detectedType.
  rewrite Hov, findRule_detect, destinations_detect. fold detectedType.
  rewrite Hrule, (readProperty_own _ _ _ Hd), Hnb, Hreply.
  destruct (parseMessageType detectedType) as [category subtype].
  cbn [default negb andb fst].
  eexists. split; [reflexivity |]. split.
  - intros Ha. apply isDestinationInList_matchesSome in Ha. by rewrite Ha.
  - intros Ha. apply isDestinationInList_not_matchesSome in Ha. by rewrite Ha.
Qed.

Lemma validate_reply_skips_confirmation_witness :
  matchesSome (lit "work_group") (requiresConfirmation reminderAny)
  /\ matchesSome (lit "work_group") (allowedIn reminderAny)
  /\ exists result,
       (validate asciiLower reminderRules
          (mkReply "Reminder: standup" "work_group")).1 = Returned result
       /\ allowed result = true
       /\ action result = allow.
Proof.
  assert (matchesSome (lit "work_group") (allowedIn reminderAny)) as Ha
    by (apply isDestinationInList_matchesSome; reflexivity).
  split; [apply isDestinationInList_matchesSome; reflexivity |].
  split; [exact Ha |].
  destruct (validate_reply_skips_confirmation asciiLower reminderRules
              (mkReply "Reminder: standup" "work_group") reminderAny
              eq_refl eq_refl eq_refl
              (ex_intro _ (mkDest "-100123456789" "Work Group") eq_refl)
              ltac:(apply isDestinationInList_not_matchesSome; reflexivity))
    as (result & Hres & H & _).
  exists result. split; [exact Hres |].
  destruct (H Ha) as (H1 & H2 & _). split; [exact H1 | exact H2].
Defined.

(** X8. For a message that is not a reply, a destination that matches the
    rule's confirmation list is asked about even when it also matches
    [allowedIn]: the confirmation test comes before the allowed one. *)
Theorem validate_confirmation_before_allow
    (toLowerCase : jsstring -> jsstring) (rules : MessagingRules)
    (context : MessageContext) (rule : MessageTypeRule) :
  let detectedType :=
    (detectMessageType toLowerCase rules (content context)).1 in
  isReply context <> Some true ->
  includes (content context) (overrideCode rules) = false ->
  findRule rules detectedType = Returned (Some (Rule rule)) ->
  is_Some (destinations rules !! destination context) ->
  ~ matchesSome (destination context) (blockedIn rule) ->
  matchesSome (destination context) (requiresConfirmation rule) ->
  exists result,
    (validate toLowerCase rules context).1 = Returned result
    /\ allowed result = false /\ action result = ask
    /\ reason result
       = Some (getDestinationName rules (destination context)
               ++ lit " requires confirmation for " ++ detectedType)
    /\ matchedRule result
       = Some (typePathOf (parseMessageType detectedType).1
                          (parseMessageType detectedType).2)
    /\ suggestedDestination result = None
    /\ needsConfirmation result = Some true.
Proof.
  intros detectedType Hreply Hov Hrule [d Hd] Hnb Hc.
  apply isDestinationInList_not_matchesSome in Hnb.
  apply isDestinationInList_matchesSome in Hc.
  assert (negb (default false (isReply context)) = true) as Hneg.
  { destruct (isReply context) as [[|]|]; done. }
  unfold validate. cbv zeta. fold detectedType.
  rewrite Hov, findRule_detect, destinations_detect. fold detectedType.
  rewrite Hrule, (readProperty_own _ _ _ Hd), Hnb, Hneg, Hc.
  destruct (parseMessageType detectedType) as [category subtype].
  eexists. split; [reflexivity |]. done.
Qed.

Lemma validate_confirmation_before_allow_witness :
  matchesSome (lit "work_group") (requiresConfirmation reminderAny)
  /\ matchesSome (lit "work_group") (allowedIn reminderAny)
  /\ exists result,
       (validate asciiLower reminderRules
          (mkContext "Reminder: standup" "work_group")).1 = Returned result
       /\ allowed result = false
       /\ action result = ask.
Proof.
  assert (matchesSome (lit "work_group") (requiresConfirmation reminderAny))
    as Hc by (apply isDestinationInList_matchesSome; reflexivity).
  split; [exact Hc |].
  split; [apply isDestinationInList_matchesSome; reflexivity |].
  destruct (validate_confirmation_before_allow asciiLower reminderRules
              (mkContext "Reminder: standup" "work_group") reminderAny
              ltac:(discriminate) eq_refl eq_refl
              (ex_intro _ (mkDest "-100123456789" "Work Group") eq_refl)
              ltac:(apply isDestinationInList_not_matchesSome; reflexivity)
              Hc) as (result & Hres & H1 & H2 & _).
  exists result. split; [exact Hres |]. split; [exact H1 | exact H2].
Defined.

(** X9. When [validate] allows a send: the content carries the override
    code, or else there is a rule for the detected type, the table finds
    something under the destination (a destination of its own, or a value
    every object inherits, as under "constructor"), the destination matches
    no pattern of [blockedIn], it matches one of [allowedIn], and the
    message is a reply or the destination matches no pattern of
    [requiresConfirmation]; and in no other case. *)
Theorem validate_allowed_iff (toLowerCase : jsstring -> jsstring)
    (rules : MessagingRules) (context : MessageContext) :
  (exists result,
     (validate toLowerCase rules context).1 = Returned result
     /\ allowed result = true)
  <-> contains (content context) (overrideCode rules)
      \/ exists rule,
           findRule rules
             (detectMessageType toLowerCase rules (content context)).1
           = Returned (Some (Rule rule))
           /\ destinationFound rules (destination context)
           /\ ~ matchesSome (destination context) (blockedIn rule)
           /\ (isReply context = Some true
               \/ ~ matchesSome (destination context)
                                (requiresConfirmation rule))
           /\ matchesSome (destination context) (allowedIn rule).
Proof.
  split.
  - intros (result & Hres & Hal). revert Hres.
    validate_branches; intros [= <-]; try discriminate Hal.
    + left. by apply includes_contains.
    + right. exists rule. split; [done |].
      split; [apply readProperty_found; by rewrite Hdest |].
      split; [by apply isDestinationInList_not_matchesSome |].
      split; [| by apply isDestinationInList_matchesSome].
      apply andb_false_iff in Hconfirm as [Hr | Hc].
      * left. by destruct (isReply context) as [[|]|].
      * right. by apply isDestinationInList_not_matchesSome.
    + right. exists rule. split; [done |].
      split; [apply readProperty_found; by rewrite Hdest |].
      split; [by apply isDestinationInList_not_matchesSome |].
      split; [| by apply isDestinationInList_matchesSome].
      apply andb_false_iff in Hconfirm as [Hr | Hc].
      * left. by destruct (isReply context) as [[|]|].
      * right. by apply isDestinationInList_not_matchesSome.
  - intros [Hc | (rule & Hrule & Hd & Hnb & Hrc & Ha)].
    + apply includes_contains in Hc. unfold validate. rewrite Hc.
      by eexists.
    + apply isDestinationInList_not_matchesSome in Hnb.
      apply isDestinationInList_matchesSome in Ha.
      apply readProperty_found in Hd.
      assert (negb (default false (isReply context))
              && isDestinationInList (destination context)
                   (requiresConfirmation rule) = false) as Hconfirm.
      { destruct Hrc as [-> | Hrc]; [done |].
        apply isDestinationInList_not_matchesSome in Hrc. rewrite Hrc.
        by rewrite andb_false_r. }
      unfold validate. cbv zeta.
      destruct (includes _ _); [by eexists |].
      rewrite findRule_detect, destinations_detect, Hrule.
      destruct (parseMessageType _) as [category subtype].
      destruct (readProperty _ _); [| | done];
        rewrite Hnb, Hconfirm, Ha; by eexists.
Qed.

Lemma validate_allowed_iff_witness :
  matchesSome (lit "boss_dm") (allowedIn reminderAny)
  /\ exists result,
       (validate asciiLower reminderRules
          (mkContext "Reminder: standup" "boss_dm")).1 = Returned result
       /\ allowed result = true.
Proof.
  assert (matchesSome (lit "boss_dm") (allowedIn reminderAny)) as Ha
    by (apply isDestinationInList_matchesSome; reflexivity).
  split; [exact Ha |].
  apply (proj2 (validate_allowed_iff asciiLower reminderRules
                  (mkContext "Reminder: standup" "boss_dm"))).
  right. exists reminderAny. split; [reflexivity |].
  split; [left; by eexists |].
  split; [apply isDestinationInList_not_matchesSome; reflexivity |].
  split; [| exact Ha].
  right. apply isDestinationInList_not_matchesSome. reflexivity.
Defined.

(** A destination named "constructor" is in no table, and yet found. *)
Example validate_inherited_destination :
  destinations (withUnknownRule (sampleRules block ask "BOSS_OVERRIDE"))
    !! lit "constructor" = None
  /\ (validate asciiLower
        (withUnknownRule (sampleRules block ask "BOSS_OVERRIDE"))
        (mkContext "weekly summary" "constructor")).1
     = Returned
         {| allowed := false; action := ask;
            reason := Some (lit "unknown not explicitly allowed in Object");
            messageType := Some (lit "unknown"); matchedRule := None;
            suggestedDestination := None; needsConfirmation := Some true |}.
Proof. split; reflexivity. Qed.

(** X10. With no override code and something found for the detected type,
    a rule or not, a destination under which the table finds nothing (it is
    not in the table and is not a name that every object inherits) gets the
    unknown-destination answer, with the configured default action and no
    matched rule, whatever the rule's lists hold: a wildcard in [blockedIn]
    does not block it and a wildcard in [allowedIn] does not allow it. *)
Theorem validate_unknown_destination (toLowerCase : jsstring -> jsstring)
    (rules : MessagingRules) (context : MessageContext) (found : Found) :
  let detectedType :=
    (detectMessageType toLowerCase rules (content context)).1 in
  includes (content context) (overrideCode rules) = false ->
  findRule rules detectedType = Returned (Some found) ->
  destinations rules !! destination context = None ->
  destination context ∉ objectPrototypeKeys ->
  (validate toLowerCase rules context).1
  = Returned
      {| allowed := false;
         action := db_action (unknownDestination (defaults rules));
         reason := Some (lit "Unknown destination: " ++ destination context);
         messageType := Some detectedType; matchedRule := None;
         suggestedDestination := None; needsConfirmation := Some true |}.
Proof.
  intros detectedType Hov Hrule Hd Hk. unfold validate. cbv zeta.
  fold detectedType.
  rewrite Hov, findRule_detect, destinations_detect. fold detectedType.
  rewrite Hrule, (readProperty_not_inherited _ _ Hk), Hd.
  by destruct (parseMessageType detectedType) as [category subtype].
Qed.

Lemma validate_unknown_destination_witness :
  destinations (sampleRules block ask "BOSS_OVERRIDE") !! lit "ghost" = None
  /\ (lit "ghost" ∉ objectPrototypeKeys)
  /\ exists result,
       (validate asciiLower (sampleRules block ask "BOSS_OVERRIDE")
          (mkContext "quarterly revenue report" "ghost")).1 = Returned result
       /\ action result = ask.
Proof.
  assert (lit "ghost" ∉ objectPrototypeKeys) as Hk
    by (apply (bool_decide_unpack _); vm_compute; exact I).
  split; [reflexivity |]. split; [exact Hk |].
  eexists. split.
  - exact (validate_unknown_destination asciiLower
             (sampleRules block ask "BOSS_OVERRIDE")
             (mkContext "quarterly revenue report" "ghost")
             (Rule revenueRule) eq_refl eq_refl eq_refl Hk).
  - reflexivity.
Defined.

(** X11. The matched rule that a result reports is the detected type's
    category and subtype written as "<category>.<subtype>", also when the
    rule was found under ['*']; it resolves, by [findRule], to the rule the
    detected type resolves to, and comes with the detected type as message
    type. *)
Theorem validate_matchedRule_resolves (toLowerCase : jsstring -> jsstring)
    (rules : MessagingRules) (context : MessageContext)
    (result : ValidationResult) (m : jsstring) :
  let detectedType :=
    (detectMessageType toLowerCase rules (content context)).1 in
  (validate toLowerCase rules context).1 = Returned result ->
  matchedRule result = Some m ->
  m = typePathOf (parseMessageType detectedType).1
                 (parseMessageType detectedType).2
  /\ parseMessageType m = parseMessageType detectedType
  /\ findRule rules m = findRule rules detectedType
  /\ (exists rule, findRule rules m = Returned (Some (Rule rule)))
  /\ messageType result = Some detectedType.
Proof.
  cbv zeta. validate_branches; intros [= <-]; try discriminate.
  all: cbn [matchedRule messageType]; intros [= <-].
  all: destruct (findRule_typePathOf rules _ _ _ Hparse) as [Hp Hf].
  all: change (category ++ dot :: subtype)
         with (typePathOf category subtype).
  all: rewrite Hp, Hf, Hrule.
  all: split; [done |]; split; [done |]; split; [done |].
  all: split; [by eexists | done].
Qed.

Lemma validate_matchedRule_resolves_witness :
  exists result,
    (validate asciiLower reminderRules
       (mkContext "Reminder: standup" "work_group")).1 = Returned result
    /\ matchedRule result = Some (lit "reminder.*")
    /\ findRule reminderRules (lit "reminder.*")
       = Returned (Some (Rule reminderAny)).
Proof.
  eexists. split; [reflexivity |]. split; [reflexivity |].
  pose proof (validate_matchedRule_resolves asciiLower reminderRules
                (mkContext "Reminder: standup" "work_group") _
                (lit "reminder.*") eq_refl eq_refl) as H.
  cbv zeta in H. destruct H as (_ & _ & Hf & _).
  rewrite Hf. reflexivity.
Defined.

(** X12. A content to which no detection pattern answers is classified by
    keyword into one of five categories with the subtype ['*'], so the only
    rule it can get is that category's wildcard rule: a rule stored under a
    specific subtype is never reached by keyword classification. *)
Theorem keyword_type_resolves_to_wildcard
    (toLowerCase : jsstring -> jsstring) (rules : MessagingRules)
    (s : jsstring) :
  noDetection (detectionRules rules) s ->
  exists category,
    category ∈ fallbackCategories
    /\ parseMessageType (detectMessageType toLowerCase rules s).1
       = (category, star)
    /\ findRule rules (detectMessageType toLowerCase rules s).1
       = Returned (Rule <$> (messageTypes rules !! category ≫= (.!! star))).
Proof.
  intros Hno. unfold detectMessageType. cbn [fst].
  rewrite (testRules_none _ _ Hno). unfold keywordFallback.
  repeat match goal with
    | |- context [if ?b then _ else _] => destruct b
    end.
  - exists (lit "digest"). split; [set_solver |].
    split; [reflexivity | by apply findRule_wildcard_subtype].
  - exists (lit "reminder"). split; [set_solver |].
    split; [reflexivity | by apply findRule_wildcard_subtype].
  - exists (lit "reply"). split; [set_solver |].
    split; [reflexivity | by apply findRule_wildcard_subtype].
  - exists (lit "business"). split; [set_solver |].
    split; [reflexivity | by apply findRule_wildcard_subtype].
  - exists (lit "unknown"). split; [set_solver |].
    split; [reflexivity | by apply findRule_wildcard_subtype].
Qed.

Lemma keyword_type_resolves_to_wildcard_witness :
  noDetection (detectionRules (sampleRules ask ask "BOSS_OVERRIDE"))
              (lit "quarterly revenue report")
  /\ exists category,
       category ∈ fallbackCategories
       /\ parseMessageType
            (detectMessageType asciiLower
               (sampleRules ask ask "BOSS_OVERRIDE")
               (lit "quarterly revenue report")).1 = (category, star)
       /\ findRule (sampleRules ask ask "BOSS_OVERRIDE")
            (detectMessageType asciiLower
               (sampleRules ask ask "BOSS_OVERRIDE")
               (lit "quarterly revenue report")).1
          = Returned
              (Rule <$> (messageTypes (sampleRules ask ask "BOSS_OVERRIDE")
                           !! category ≫= (.!! star))).
Proof.
  assert (noDetection (detectionRules (sampleRules ask ask "BOSS_OVERRIDE"))
            (lit "quarterly revenue report")) as Hno
    by (repeat constructor).
  split; [exact Hno |].
  exact (keyword_type_resolves_to_wildcard asciiLower
           (sampleRules ask ask "BOSS_OVERRIDE")
           (lit "quarterly revenue report") Hno).
Defined.

(** X17. The type that [detectMessageType] answers is the [classifyAs] of
    a configured detection rule one of whose patterns answered true to
    [test] on the content, or else one of the five answers of the keyword
    fallback; with no detection rule configured it is always one of the
    five. *)
Theorem detectMessageType_range (toLowerCase : jsstring -> jsstring)
    (rules : MessagingRules) (s : jsstring) :
  ((exists r, r ∈ detectionRules rules /\ ruleMatches s r
              /\ (detectMessageType toLowerCase rules s).1 = classifyAs r)
   \/ (detectMessageType toLowerCase rules s).1 ∈ fallbackTypes)
  /\ (detectionRules rules = [] ->
      (detectMessageType toLowerCase rules s).1 ∈ fallbackTypes).
Proof.
  assert (forall low, keywordFallback low ∈ fallbackTypes) as Hkw.
  { intros low. unfold keywordFallback, fallbackTypes.
    repeat match goal with
      | |- context [if ?b then _ else _] => destruct b
      end; set_solver. }
  unfold detectMessageType. cbn [fst]. split.
  - destruct (testRules (detectionRules rules) s).1 as [path|] eqn:Hf.
    + left. destruct (testRules_classifyAs _ _ _ Hf) as (r & ? & ? & ?).
      by exists r.
    + right. apply Hkw.
  - intros ->. apply Hkw.
Qed.

Lemma detectMessageType_range_witness :
  detectionRules bareRules = []
  /\ (detectMessageType asciiLower bareRules
        (lit "Daily digest from reddit")).1 ∈ fallbackTypes.
Proof.
  split; [reflexivity |].
  exact (proj2 (detectMessageType_range asciiLower bareRules
                  (lit "Daily digest from reddit")) eq_refl).
Defined.

(** ** The confirmation message *)

(** C8. The confirmation message is the template for the destination and
    the result, with a preview of the content in it: the content itself
    when it has at most 100 code units, and its first 100 code units
    followed by "..." when it has more; so the message is never longer
    than the template plus 100 plus the three units of the marker. *)
Theorem formatConfirmation_preview (rules : MessagingRules)
    (context : MessageContext) (result : ValidationResult) :
  let head := templateHead rules (destination context) result in
  let tail := templateTail rules result in
  let text := content context in
  let msg := formatConfirmation rules context result in
  (length text <= 100 -> msg = head ++ text ++ tail)%nat
  /\ (100 < length text -> msg = head ++ take 100 text ++ lit "..." ++ tail)%nat
  /\ (length msg <= length head + length tail + 100 + length (lit "..."))%nat.
Proof.
  cbv zeta.
  assert (formatConfirmation rules context result
          = templateHead rules (destination context) result
            ++ (take 100 (content context)
                ++ (if (100 <? length (content context))%nat
                    then lit "..." else []))
            ++ templateTail rules result) as Hshape.
  { unfold formatConfirmation, templateHead, templateTail, substring0.
    destruct (suggestedDestination result) as [d|]; simpl default;
      [destruct (truthy d) |]; cbn [truthy];
      rewrite <- ?app_assoc; reflexivity. }
  split; [| split].
  - intros Hle. rewrite Hshape.
    destruct (Nat.ltb_spec 100 (length (content context))); [lia |].
    by rewrite take_ge, app_nil_r by lia.
  - intros Hlt. rewrite Hshape.
    destruct (Nat.ltb_spec 100 (length (content context))); [| lia].
    by rewrite <- app_assoc.
  - rewrite Hshape, !length_app, length_take.
    destruct (100 <? length (content context))%nat; simpl length; lia.
Qed.

Lemma formatConfirmation_preview_witness :
  (length (content (mkContext "a reddit thread" "boss_dm")) <= 100)%nat
  /\ formatConfirmation (sampleRules ask ask "BOSS_OVERRIDE")
       (mkContext "a reddit thread" "boss_dm") overrideResult
     = templateHead (sampleRules ask ask "BOSS_OVERRIDE") (lit "boss_dm")
         overrideResult
       ++ lit "a reddit thread"
       ++ templateTail (sampleRules ask ask "BOSS_OVERRIDE") overrideResult.
Proof.
  assert (length (content (mkContext "a reddit thread" "boss_dm")) <= 100)%nat
    as Hle by (vm_compute; lia).
  split; [exact Hle |].
  exact (proj1 (formatConfirmation_preview
                  (sampleRules ask ask "BOSS_OVERRIDE")
                  (mkContext "a reddit thread" "boss_dm") overrideResult) Hle).
Defined.

(** A content of 101 code units is cut to 100 and marked. *)
Example formatConfirmation_truncates :
  formatConfirmation (sampleRules ask ask "BOSS_OVERRIDE")
    {| content := replicate 101 120; destination := lit "boss_dm";
       channel := lit "telegram"; isReply := None; threadId := None |}
    overrideResult
  = templateHead (sampleRules ask ask "BOSS_OVERRIDE") (lit "boss_dm")
      overrideResult
    ++ replicate 100 120 ++ lit "..."
    ++ templateTail (sampleRules ask ask "BOSS_OVERRIDE") overrideResult.
Proof. reflexivity. Qed.

(** ** Further properties of the confirmation message and the hook *)

(** X13. For a result of [validate] whose action is ask, the confirmation
    message has every part filled in: the message type is the detected
    type, the reason is the result's own, neither is printed as
    "undefined", and there is no "Suggested" line, a suggested destination
    coming only with a block. *)
Theorem formatConfirmation_of_ask (toLowerCase : jsstring -> jsstring)
    (rules : MessagingRules) (context : MessageContext)
    (result : ValidationResult) :
  let detectedType :=
    (detectMessageType toLowerCase rules (content context)).1 in
  (validate toLowerCase rules context).1 = Returned result ->
  action result = ask ->
  exists why,
    reason result = Some why
    /\ messageType result = Some detectedType
    /\ suggestedDestination result = None
    /\ formatConfirmation rules context result
       = warning_sign ++ lit " **Send Confirmation Required**" ++ nl ++ nl
         ++ lit "**To:** " ++ getDestinationName rules (destination context)
         ++ nl
         ++ lit "**Type:** " ++ detectedType ++ nl
         ++ lit "**Reason:** " ++ why ++ nl ++ nl
         ++ lit "**Message:**" ++ nl
         ++ take 100 (content context)
         ++ (if (100 <? length (content context))%nat then lit "..." else [])
         ++ nl ++ nl
         ++ lit "Reply **YES** to send, **NO** to cancel.".
Proof.
  cbv zeta. intros Hres Hask.
  assert (exists why,
            reason result = Some why
            /\ messageType result
               = Some (detectMessageType toLowerCase rules
                         (content context)).1
            /\ suggestedDestination result = None) as (why & Hwhy & Hty & Hsug).
  { revert Hres Hask. validate_branches; intros [= <-];
      cbn [action]; try discriminate; intros _; by eexists. }
  exists why. split; [done |]. split; [done |]. split; [done |].
  unfold formatConfirmation, substring0. rewrite Hwhy, Hty, Hsug.
  cbn [show]. rewrite <- ?app_assoc. reflexivity.
Qed.

Lemma formatConfirmation_of_ask_witness :
  exists result,
    (validate asciiLower reminderRules
       (mkContext "Reminder: standup" "work_group")).1 = Returned result
    /\ action result = ask
    /\ suggestedDestination result = None.
Proof.
  eexists. split; [reflexivity |]. split; [reflexivity |].
  destruct (formatConfirmation_of_ask asciiLower reminderRules
              (mkContext "Reminder: standup" "work_group") _ eq_refl eq_refl)
    as (why & _ & _ & Hs & _).
  exact Hs.
Defined.

Lemma validate_destinations (toLowerCase : jsstring -> jsstring)
    (rules : MessagingRules) (context : MessageContext) :
  destinations (validate toLowerCase rules context).2 = destinations rules.
Proof. unfold validate. by destruct (includes _ _). Qed.

Lemma formatConfirmation_ext (rules rules' : MessagingRules)
    (context : MessageContext) (result : ValidationResult) :
  destinations rules' = destinations rules ->
  formatConfirmation rules' context result
  = formatConfirmation rules context result.
Proof.
  intros Hd. unfold formatConfirmation, getDestinationName. by rewrite Hd.
Qed.

Lemma validate_reason_unless_allow (toLowerCase : jsstring -> jsstring)
    (rules : MessagingRules) (context : MessageContext)
    (result : ValidationResult) :
  (validate toLowerCase rules context).1 = Returned result ->
  action result <> allow -> is_Some (reason result).
Proof.
  validate_branches; intros [= <-]; cbn [action reason]; intros Hne;
    first [by destruct Hne | by eexists].
Qed.



(** X15. With a default action of allow the two part ways: a message
    without the override code for whose type [findRule] returns null
    (unknown-type default allow), or returns something while the table
    finds nothing under the destination (unknown-destination default
    allow), is let through by the hook without any confirmation request,
    although [validate] marks it as not allowed and as needing
    confirmation. *)
Theorem preMessageSend_default_allow_passes
    (toLowerCase : jsstring -> jsstring) (rules : MessagingRules)
    (context : MessageContext) :
  let detectedType :=
    (detectMessageType toLowerCase rules (content context)).1 in
  includes (content context) (overrideCode rules) = false ->
  (findRule rules detectedType = Returned None
   /\ db_action (unknownMessageType (defaults rules)) = allow)
  \/ ((exists found, findRule rules detectedType = Returned (Some found))
      /\ destinations rules !! destination context = None
      /\ (destination context ∉ objectPrototypeKeys)
      /\ db_action (unknownDestination (defaults rules)) = allow) ->
  (preMessageSend toLowerCase rules context).1
  = ({| hook_allow := true; hook_reason := None |}, [])
  /\ exists result,
       (validate toLowerCase rules context).1 = Returned result
       /\ allowed result = false
       /\ needsConfirmation result = Some true.
Proof.
  intros detectedType Hov Hcase. unfold preMessageSend, validate. cbv zeta.
  fold detectedType. rewrite Hov, findRule_detect, destinations_detect.
  fold detectedType.
  destruct (parseMessageType detectedType) as [category subtype].
  destruct Hcase as [[Hrule Hdef] | ([found Hrule] & Hdest & Hk & Hdef)].
  - rewrite Hrule. cbn. rewrite Hdef. split; [done | by eexists].
  - rewrite Hrule, (readProperty_not_inherited _ _ Hk), Hdest. cbn.
    rewrite Hdef. split; [done | by eexists].
Qed.

Lemma preMessageSend_default_allow_passes_witness :
  db_action (unknownMessageType
               (defaults (sampleRules allow block "BOSS_OVERRIDE"))) = allow
  /\ hook_allow (preMessageSend asciiLower
                  (sampleRules allow block "BOSS_OVERRIDE")
                  (mkContext "weekly summary" "boss_dm")).1.1 = true
  /\ exists result,
       (validate asciiLower (sampleRules allow block "BOSS_OVERRIDE")
          (mkContext "weekly summary" "boss_dm")).1 = Returned result
       /\ allowed result = false.
Proof.
  split; [reflexivity |].
  destruct (preMessageSend_default_allow_passes asciiLower
              (sampleRules allow block "BOSS_OVERRIDE")
              (mkContext "weekly summary" "boss_dm") eq_refl
              (or_introl (conj eq_refl eq_refl)))
    as (H1 & result & Hres & H2 & _).
  split; [by rewrite H1 |]. exists result. by split.
Defined.

(** X16. What the hook hands on.  When it lets the message through,
    [validate] returned a result with the action allow; the hook gives no
    reason and sends nothing.  When it refuses, either [validate] threw,
    and the answer is the validation error with nothing sent; or [validate]
    returned a result with a reason, and the hook's reason is that reason
    for a block, with nothing sent, and "Confirmation required: <reason>"
    for an ask, with exactly one confirmation request sent, the formatted
    message; the text "undefined" is never put in place of a missing
    reason. *)
Theorem preMessageSend_answers (toLowerCase : jsstring -> jsstring)
    (rules : MessagingRules) (context : MessageContext) :
  let outcome := (validate toLowerCase rules context).1 in
  let response := (preMessageSend toLowerCase rules context).1.1 in
  let sent := (preMessageSend toLowerCase rules context).1.2 in
  (hook_allow response = true ->
   exists result,
     outcome = Returned result /\ action result = allow
     /\ hook_reason response = None /\ sent = [])
  /\ (hook_allow response = false ->
      (outcome = Threw /\ response = validationError /\ sent = [])
      \/ exists result why,
           outcome = Returned result
           /\ reason result = Some why
           /\ ((action result = block
                /\ hook_reason response = Some why /\ sent = [])
               \/ (action result = ask
                   /\ hook_reason response
                      = Some (lit "Confirmation required: " ++ why)
                   /\ sent = [formatConfirmation rules context result]))).
Proof.
  cbv zeta.
  pose proof (validate_reason_unless_allow toLowerCase rules context)
    as Hreason.
  unfold preMessageSend. cbv zeta.
  destruct (validate toLowerCase rules context).1 as [result|] eqn:Hres;
    [| split; [discriminate | by left]].
  specialize (Hreason result eq_refl).
  destruct (action result) eqn:Hact; cbn.
  - split; [done |]. intros _. right.
    destruct (Hreason ltac:(discriminate)) as [why Hwhy].
    exists result, why. split; [done |]. split; [done |]. right.
    rewrite Hwhy. split; [done |]. split; [done |].
    by rewrite (formatConfirmation_ext rules _ context result
                  (validate_destinations toLowerCase rules context)).
  - split; [by exists result | discriminate].
  - split; [done |]. intros _. right.
    destruct (Hreason ltac:(discriminate)) as [why Hwhy].
    exists result, why. split; [done |]. split; [done |]. left.
    by rewrite Hwhy.
Qed.

Lemma preMessageSend_answers_witness :
  hook_allow (preMessageSend asciiLower (classifyingAs "constructor.name")
                (mkContext "a reddit thread" "boss_dm")).1.1 = false
  /\ (validate asciiLower (classifyingAs "constructor.name")
        (mkContext "a reddit thread" "boss_dm")).1 = Threw
  /\ hook_allow (preMessageSend asciiLower reminderRules
                  (mkContext "Reminder: standup" "work_group")).1.1 = false
  /\ exists result why,
       (validate asciiLower reminderRules
          (mkContext "Reminder: standup" "work_group")).1 = Returned result
       /\ reason result = Some why.
Proof.
  split; [reflexivity |]. split; [reflexivity |]. split; [reflexivity |].
  destruct (proj2 (preMessageSend_answers asciiLower reminderRules
                     (mkContext "Reminder: standup" "work_group")) eq_refl)
    as [[Hthrew _] | (result & why & Hres & Hwhy & _)].
  - discriminate Hthrew.
  - by exists result, why.
Defined.

(** X19. The display name of a destination is the name the table gives it
    when the destination is in the table with a non-empty name; for a
    destination that is not in the table it is "Object" under the name
    "constructor", which every object inherits, and the identifier itself
    otherwise, as it is for a destination of the table with an empty name;
    so it is empty only for an empty identifier. *)
Theorem getDestinationName_fallback (rules : MessagingRules)
    (destId : jsstring) :
  (forall d, destinations rules !! destId = Some d -> dest_name d <> [] ->
             getDestinationName rules destId = dest_name d)
  /\ (forall d, destinations rules !! destId = Some d -> dest_name d = [] ->
                getDestinationName rules destId = destId)
  /\ (destinations rules !! destId = None -> destId = lit "constructor" ->
      getDestinationName rules destId = lit "Object")
  /\ (destinations rules !! destId = None -> destId <> lit "constructor" ->
      getDestinationName rules destId = destId)
  /\ (destId <> [] -> getDestinationName rules destId <> []).
Proof.
  unfold getDestinationName, readProperty.
  split; [| split; [| split; [| split]]].
  - intros d -> Hne. simpl. by destruct (dest_name d).
  - intros d -> Hn. simpl. by rewrite Hn.
  - by intros -> ->.
  - intros -> Hne. case_bool_decide; [| done]. unfold builtinName.
    destruct (decide (destId = lit "__proto__")); [done |].
    destruct (decide (destId = lit "constructor")); [done |].
    simpl. by destruct destId.
  - intros Hne. destruct (destinations rules !! destId) as [d|]; simpl.
    + by destruct (dest_name d).
    + case_bool_decide; [| done]. unfold builtinName.
      destruct (decide (destId = lit "__proto__")); [done |].
      destruct (decide (destId = lit "constructor")); [done |].
      simpl. by destruct destId.
Qed.

Lemma getDestinationName_fallback_witness :
  destinations reminderRules !! lit "ghost" = None
  /\ getDestinationName reminderRules (lit "ghost") = lit "ghost"
  /\ getDestinationName reminderRules (lit "constructor") = lit "Object"
  /\ getDestinationName reminderRules (lit "boss_dm") = lit "Boss".
Proof.
  pose proof (getDestinationName_fallback reminderRules (lit "ghost"))
    as (_ & _ & _ & Hghost & _).
  pose proof (getDestinationName_fallback reminderRules (lit "constructor"))
    as (_ & _ & Hctor & _).
  pose proof (getDestinationName_fallback reminderRules (lit "boss_dm"))
    as (Hboss & _).
  split; [reflexivity |].
  split; [exact (Hghost eq_refl ltac:(discriminate)) |].
  split; [exact (Hctor eq_refl eq_refl) |].
  exact (Hboss (mkDest "5185778742" "Boss") eq_refl ltac:(discriminate)).
Defined.

(** ** When [validate] throws, and what a call leaves behind *)

Lemma findRule_plain (rules : MessagingRules)
    (typePath category subtype : jsstring) :
  parseMessageType typePath = (category, subtype) ->
  category ∉ objectPrototypeKeys ->
  subtype ∉ objectPrototypeKeys ->
  exists found : option MessageTypeRule,
    findRule rules typePath = Returned (Rule <$> found).
Proof.
  intros Hp Hc Hs.
  destruct (messageTypes rules !! category) as [categoryRules|] eqn:Hm.
  - rewrite (findRule_own _ _ _ _ _ Hp Hm).
    rewrite (readProperty_not_inherited categoryRules _ Hs).
    case_bool_decide; [| by eexists].
    destruct (categoryRules !! subtype) as [rule|];
      [by exists (Some rule) | by eexists].
  - rewrite (findRule_absent _ _ _ _ Hp Hm).
    rewrite bool_decide_eq_false_2 by done. by exists None.
Qed.

(** X18. [validate] throws in exactly two cases, both without the override
    code in the content: [findRule] itself throws, or [findRule] returns a
    built-in value in place of a rule and the table finds something under
    the destination, so that the lists of the value, which has none, are
    read.  When neither the category nor the subtype of the detected type
    is a property name of [Object.prototype], [validate] returns. *)
Theorem validate_throws_iff (toLowerCase : jsstring -> jsstring)
    (rules : MessagingRules) (context : MessageContext) :
  let detectedType :=
    (detectMessageType toLowerCase rules (content context)).1 in
  ((validate toLowerCase rules context).1 = Threw
   <-> includes (content context) (overrideCode rules) = false
       /\ (findRule rules detectedType = Threw
           \/ exists path,
                findRule rules detectedType = Returned (Some (Builtin path))
                /\ destinationFound rules (destination context)))
  /\ ((parseMessageType detectedType).1 ∉ objectPrototypeKeys ->
      (parseMessageType detectedType).2 ∉ objectPrototypeKeys ->
      exists result, (validate toLowerCase rules context).1 = Returned result).
Proof.
  cbv zeta. split; [split |].
  - validate_branches; try discriminate; intros _; (split; [done |]).
    + right. exists path. split; [done |].
      apply readProperty_found. by rewrite Hdest.
    + right. exists path. split; [done |].
      apply readProperty_found. by rewrite Hdest.
    + by left.
  - intros [Hov [Hthrew | (path & Hrule & Hfound)]];
      unfold validate; cbv zeta; rewrite Hov, findRule_detect.
    + rewrite Hthrew. by destruct (parseMessageType _).
    + rewrite Hrule, destinations_detect.
      apply readProperty_found in Hfound.
      destruct (parseMessageType _).
      by destruct (readProperty _ _).
  - destruct (parseMessageType _) as [category subtype] eqn:Hp.
    cbn [fst snd]. intros Hc Hs.
    destruct (findRule_plain rules _ _ _ Hp Hc Hs) as [found Hfound].
    unfold validate. cbv zeta.
    destruct (includes _ _); [by eexists |].
    rewrite findRule_detect, Hp, Hfound.
    destruct found as [rule|]; cbn [fmap option_fmap option_map];
      [| by eexists].
    destruct (readProperty _ _); by eexists.
Qed.

Lemma validate_throws_iff_witness :
  includes (content (mkContext "a reddit thread" "boss_dm"))
           (overrideCode (classifyingAs "constructor.caller")) = false
  /\ findRule (classifyingAs "constructor.caller") (lit "constructor.caller")
     = Threw
  /\ (validate asciiLower (classifyingAs "constructor.caller")
        (mkContext "a reddit thread" "boss_dm")).1 = Threw.
Proof.
  split; [reflexivity |]. split; [reflexivity |].
  apply (proj2 (proj1 (validate_throws_iff asciiLower
                         (classifyingAs "constructor.caller")
                         (mkContext "a reddit thread" "boss_dm")))).
  split; [reflexivity | left; reflexivity].
Defined.

Section LeftBehind.

Variable s : jsstring.

(** The object after [test] is the object before, but for [lastIndex]. *)
Lemma test_lastIndex_only (p : RegExp) :
  withLastIndex p (lastIndex (test p s).2) = (test p s).2.
Proof.
  unfold test. cbv zeta.
  destruct (if (length s <? _)%nat then None else scanFrom p s _);
    destruct (re_global p || re_sticky p); by destruct p.
Qed.

Lemma testPatterns_lastIndex_only (ps : list RegExp) :
  Forall2 (fun p p' => withLastIndex p (lastIndex p') = p')
          ps (testPatterns ps s).2.
Proof.
  induction ps as [|p ps IH]; simpl; [constructor |].
  destruct (test p s).1; cbn [snd]; constructor;
    try apply test_lastIndex_only; [| done].
  clear. induction ps as [|q ps IH]; constructor; [by destruct q | done].
Qed.

Lemma testRules_lastIndex_only (rs : list DetectionRule) :
  Forall2 (fun r r' =>
             dr_name r' = dr_name r /\ classifyAs r' = classifyAs r
             /\ Forall2 (fun p p' => withLastIndex p (lastIndex p') = p')
                        (patterns r) (patterns r'))
          rs (testRules rs s).2.
Proof.
  induction rs as [|r rs IH]; simpl; [constructor |].
  destruct (testPatterns (patterns r) s).1; cbn [snd]; constructor;
    try (split; [done |]; split; [done |];
         apply testPatterns_lastIndex_only); [| done].
  clear. induction rs as [|r rs IH]; constructor; [| done].
  split; [done |]. split; [done |].
  induction (patterns r) as [|q ps IHp]; constructor; [by destruct q | done].
Qed.

Lemma testPatterns_stateless (ps : list RegExp) :
  Forall stateless ps -> (testPatterns ps s).2 = ps.
Proof.
  induction 1 as [|p ps Hp _ IH]; simpl; [done |].
  rewrite (test_stateless s p Hp). cbn [fst snd].
  destruct (matchesContent p s); cbn [snd]; [done | by rewrite IH].
Qed.

Lemma testRules_stateless (rs : list DetectionRule) :
  allPatterns stateless rs -> (testRules rs s).2 = rs.
Proof.
  induction 1 as [|r rs Hr _ IH]; simpl; [done |].
  rewrite (testPatterns_stateless _ Hr).
  destruct (testPatterns (patterns r) s).1; cbn [snd];
    [| rewrite IH]; by destruct r.
Qed.

End LeftBehind.

(** X20. A call of [validate] changes nothing in the table but the
    [lastIndex] of detection patterns: the destinations, the message types,
    the defaults, the override code and the version are the same, and the
    detection rules are the same rules with the same patterns, each at most
    with another [lastIndex]. *)
Theorem validate_changes_lastIndex_only (toLowerCase : jsstring -> jsstring)
    (rules : MessagingRules) (context : MessageContext) :
  let rules' := (validate toLowerCase rules context).2 in
  version rules' = version rules
  /\ destinations rules' = destinations rules
  /\ messageTypes rules' = messageTypes rules
  /\ defaults rules' = defaults rules
  /\ overrideCode rules' = overrideCode rules
  /\ Forall2 (fun r r' =>
                dr_name r' = dr_name r /\ classifyAs r' = classifyAs r
                /\ Forall2 (fun p p' => withLastIndex p (lastIndex p') = p')
                           (patterns r) (patterns r'))
             (detectionRules rules) (detectionRules rules').
Proof.
  cbv zeta. unfold validate. cbv zeta.
  destruct (includes _ _); cbn [snd].
  - repeat split; try done.
    induction (detectionRules rules) as [|r rs IH]; constructor; [| done].
    split; [done |]. split; [done |].
    induction (patterns r) as [|q ps IHp]; constructor; [by destruct q | done].
  - destruct (parseMessageType _). cbn [snd].
    repeat split; try done. apply testRules_lastIndex_only.
Qed.

(** X21. When no detection pattern has the [g] or the [y] flag, a call of
    [validate], and a call of the hook, leave the table exactly as it
    was, so that the answer to a message does not depend on the messages
    before it. *)
Theorem validate_stateless_table (toLowerCase : jsstring -> jsstring)
    (rules : MessagingRules) (context : MessageContext) :
  allPatterns stateless (detectionRules rules) ->
  (validate toLowerCase rules context).2 = rules
  /\ (preMessageSend toLowerCase rules context).2 = rules.
Proof.
  intros Hall.
  assert ((validate toLowerCase rules context).2 = rules) as Hv.
  { unfold validate. cbv zeta. destruct (includes _ _); [done |].
    destruct (parseMessageType _). cbn [snd detectMessageType].
    rewrite (testRules_stateless _ _ Hall). by destruct rules. }
  split; [done |]. unfold preMessageSend. cbv zeta. rewrite Hv.
  destruct (validate toLowerCase rules context).1 as [result|]; [| done].
  by destruct (action result).
Qed.

Lemma validate_stateless_table_witness :
  allPatterns stateless (detectionRules (sampleRules ask ask "BOSS_OVERRIDE"))
  /\ (validate asciiLower (sampleRules ask ask "BOSS_OVERRIDE")
        (mkContext "a reddit thread" "boss_dm")).2
     = sampleRules ask ask "BOSS_OVERRIDE".
Proof.
  assert (allPatterns stateless
            (detectionRules (sampleRules ask ask "BOSS_OVERRIDE"))) as Hall
    by (repeat constructor).
  split; [exact Hall |].
  exact (proj1 (validate_stateless_table asciiLower
                  (sampleRules ask ask "BOSS_OVERRIDE")
                  (mkContext "a reddit thread" "boss_dm") Hall)).
Defined.
